(** * zgrab2 SSH module: algorithm preferences and the handshake probe

    A shallow embedding of [lib/ssh] (the preference validator and the four
    setters of [ClientConfig]) and of [modules/ssh.go] ([SSHScanner.Scan]),
    with the properties of the probe proved about it.

    Go strings are byte strings: they are [string] here (a list of [ascii]).
    A Go slice of strings is a [list string]; the nil slice is [nil].
    A Go [error] is an [option error]; the nil error is [None]. *)

From Stdlib Require Export String Ascii List.
From Stdlib Require Import Bool Arith NArith ZArith Lia.
From Stdlib Require Import DecimalString.
Import ListNotations.
Open Scope string_scope.
Open Scope list_scope.

(** ** Go's [strings] and [fmt] as far as the module uses them *)

Module strings.

(** [strings.Split(s, sep)] for a one-byte separator: all the substrings of
    [s] between separators. An [s] without the separator gives [[s]], so the
    empty string gives one empty token. *)
Fixpoint Split (s : string) (sep : ascii) : list string :=
  match s with
  | EmptyString => [EmptyString]
  | String c s' =>
      if Ascii.eqb c sep then EmptyString :: Split s' sep
      else match Split s' sep with
           | tok :: toks => String c tok :: toks
           | [] => [String c EmptyString]
           end
  end.

(** [strings.Join(elems, sep)] for a one-byte separator. *)
Definition Join (elems : list string) (sep : ascii) : string :=
  String.concat (String sep EmptyString) elems.

(** [strings.Contains(s, substr)]: [substr] starts at some position of [s]. *)
Fixpoint Contains (s substr : string) : bool :=
  String.prefix substr s ||
  match s with
  | EmptyString => false
  | String _ s' => Contains s' substr
  end.

(** A string given by its bytes. *)
Definition bytes (l : list nat) : string :=
  string_of_list_ascii (map ascii_of_nat l).

(** The UTF-8 encodings of the runes for which [unicode.IsSpace] holds:
    tab, line feed, vertical tab, form feed, carriage return, space, U+0085,
    U+00A0, U+1680, U+2000 to U+200A, U+2028, U+2029, U+202F, U+205F and
    U+3000. Go decodes no other byte sequence to one of these runes (an
    overlong or truncated encoding decodes to U+FFFD, which is no space). *)
Definition spaceEncodings : list string :=
  map bytes
    [ [9]; [10]; [11]; [12]; [13]; [32];
      [194; 133]; [194; 160];
      [225; 154; 128];
      [226; 128; 128]; [226; 128; 129]; [226; 128; 130]; [226; 128; 131];
      [226; 128; 132]; [226; 128; 133]; [226; 128; 134]; [226; 128; 135];
      [226; 128; 136]; [226; 128; 137]; [226; 128; 138];
      [226; 128; 168]; [226; 128; 169]; [226; 128; 175];
      [226; 129; 159];
      [227; 128; 128] ].

(** The string reversed, byte by byte. *)
Fixpoint reverse (s : string) : string :=
  match s with
  | EmptyString => EmptyString
  | String c s' => reverse s' ++ String c EmptyString
  end.

(** [s] without its first [n] bytes. *)
Fixpoint drop (n : nat) (s : string) : string :=
  match n, s with
  | O, _ => s
  | S n', EmptyString => EmptyString
  | S n', String _ s' => drop n' s'
  end.

(** The first of [pats] that [s] starts with. *)
Definition leading (pats : list string) (s : string) : option string :=
  find (fun p => String.prefix p s) pats.

(** Removes leading occurrences of [pats] from [s], at most [fuel] of them. *)
Fixpoint dropLeading (pats : list string) (fuel : nat) (s : string) : string :=
  match fuel with
  | O => s
  | S fuel' =>
      match leading pats s with
      | Some p => dropLeading pats fuel' (drop (String.length p) s)
      | None => s
      end
  end.

(** [strings.TrimLeftFunc(s, unicode.IsSpace)]: the runes are decoded from
    the front and dropped while they are spaces. Every space is at least one
    byte long, so [length s] rounds are enough. *)
Definition TrimLeftSpace (s : string) : string :=
  dropLeading spaceEncodings (String.length s) s.

(** [strings.TrimRightFunc(s, unicode.IsSpace)]: the same from the back,
    where Go decodes the last rune: a space is found there exactly when the
    string ends with one of the encodings. *)
Definition TrimRightSpace (s : string) : string :=
  reverse (dropLeading (map reverse spaceEncodings) (String.length s) (reverse s)).

(** [strings.TrimSpace(s)]: [s] without leading and trailing white space.
    Go's fast path for ASCII gives the same result as the general path,
    [TrimRightFunc(TrimLeftFunc(s, unicode.IsSpace), unicode.IsSpace)]. *)
Definition TrimSpace (s : string) : string :=
  TrimRightSpace (TrimLeftSpace s).

(** [s] is a run of strings of [pats], one after the other. *)
Inductive RunOf (pats : list string) : string -> Prop :=
| RunOf_nil : RunOf pats EmptyString
| RunOf_cons : forall p s, In p pats -> RunOf pats s -> RunOf pats (p ++ s).

(** [s] is nothing but white space. *)
Definition AllSpace (s : string) : Prop := RunOf spaceEncodings s.

(** The white space rune that [s] starts with, if there is one. *)
Definition leadingSpace (s : string) : option string :=
  leading spaceEncodings s.

(** The white space rune that [s] ends with (its encoding reversed), if
    there is one. *)
Definition trailingSpace (s : string) : option string :=
  leading (map reverse spaceEncodings) (reverse s).

End strings.

(** The double quote, as a string. *)
Definition dquote : string := String (ascii_of_nat 34) EmptyString.

(** ** Errors *)

(** What an error is about, as far as the status classifier tells errors
    apart (the taxonomy of section 7 of the spec). *)
Inductive ErrorKind : Type :=
| Connection        (* connection establishment failed *)
| Handshake         (* protocol failure during the handshake *)
| DeadlineExceeded  (* the I/O deadline expired *)
| Uncategorized.

(** A Go [error] value: one made by a collaborator, with its kind and text,
    or one that wraps another with [fmt.Errorf] and the verb [%w]. *)
Inductive error : Type :=
| mkError (kind : ErrorKind) (text : string)
| Errorf_w (format : string) (err : error).

(** [errors.New(text)]. *)
Definition errors_New (text : string) : error := mkError Uncategorized text.

(** [err.Error()]. [format] is the text before the verb [%w]. *)
Fixpoint Error (err : error) : string :=
  match err with
  | mkError _ text => text
  | Errorf_w format err' => format ++ Error err'
  end.

(** The kind of the innermost wrapped error. *)
Fixpoint rootKind (err : error) : ErrorKind :=
  match err with
  | mkError kind _ => kind
  | Errorf_w _ err' => rootKind err'
  end.

(** ** The byte stream and its remote side *)

Module net.

(** [net.JoinHostPort(host, port)]: a host with a colon is taken for an IPv6
    literal and put in brackets. *)
Definition JoinHostPort (host port : string) : string :=
  if strings.Contains host ":" then "[" ++ host ++ "]:" ++ port
  else host ++ ":" ++ port.

(** What the remote side answers in each phase of the handshake, when the
    driver gets that far: its identification line, the algorithm lists of
    its key exchange init (key exchange, host key, cipher, MAC), the host key
    of its key exchange reply, the extension names it advertises, the
    authentication methods of its answer to a "none" request; each one or
    the failure of the read (I/O error, closed connection, expired
    deadline, malformed message). *)
Record Peer : Type := {
  peerVersion : string + error;
  peerKexInit : (list string * list string * list string * list string) + error;
  peerKexReply : string + error;
  peerExtInfo : list string + error;
  peerUserAuth : list string + error;
  peerClosed : option error }.

(** An established connection ([net.Conn]) as the probe sees it: what
    [SetDeadline] answers for a deadline that many nanoseconds from now, and
    the remote side. *)
Record Conn : Type := {
  SetDeadline : Z -> option error;
  remote : Peer }.

End net.

(** ** Package [ssh] (lib/ssh) *)

Module ssh.

(** The negotiated algorithm of each category. *)
Record Algorithms : Type := {
  Kex : string;
  HostKey : string;
  Cipher : string;
  MAC : string }.

(** Modelled from the spec: the declaration of [HandshakeLog] (lib/ssh, its
    source is not at hand), with the fields the data model names:
    the trimmed banner, the negotiated algorithms, the host key material, the
    advertised extensions and the advertised authentication methods. A field
    that was never set is empty ([None]): [Extensions = Some nil] is a server
    that advertised no extension, [Extensions = None] is a probe that did not
    ask. The diagnostic entries are left out: the spec gives no rule for
    them. *)
Record HandshakeLog : Type := {
  Banner : string;
  AlgorithmSelection : option Algorithms;
  ServerHostKey : option string;
  Extensions : option (list string);
  UserAuth : option (list string) }.

(** [new(ssh.HandshakeLog)]: the zero value. *)
Definition new_HandshakeLog : HandshakeLog :=
  {| Banner := ""; AlgorithmSelection := None; ServerHostKey := None;
     Extensions := None; UserAuth := None |}.

(** [data.Banner = v]. *)
Definition set_Banner (v : string) (l : HandshakeLog) : HandshakeLog :=
  {| Banner := v; AlgorithmSelection := AlgorithmSelection l;
     ServerHostKey := ServerHostKey l; Extensions := Extensions l;
     UserAuth := UserAuth l |}.

(** A pointer to a [HandshakeLog]. One invocation of [Scan] allocates one
    log, [data], so there is one address. *)
Inductive LogPtr : Type := ptr_data.

(** The type of [ClientConfig.BannerCallback]. The callback of the module is
    a closure over the pointer [data]; what it does to the log it points to
    is a function from the log before to the log after. *)
Definition BannerCallbackT : Type :=
  string -> HandshakeLog -> HandshakeLog * option error.

(** The type of [ClientConfig.HostKeyCallback], applied to the host key. *)
Definition HostKeyCallbackT : Type := string -> option error.

(** [ClientConfig] (its declaration is in lib/ssh, not at hand): the fields
    that [Scan] and the setters assign. A nil function is [None]. *)
Record ClientConfig : Type := {
  Timeout : Z;
  ConnLog : option LogPtr;
  ClientVersion : string;
  HelloOnly : bool;
  KeyExchanges : list string;
  HostKeyAlgorithms : list string;
  Ciphers : list string;
  MACs : list string;
  Verbose : bool;
  CollectExtensions : bool;
  CollectUserAuth : bool;
  DontAuthenticate : bool;
  GexMinBits : N;
  GexMaxBits : N;
  GexPreferredBits : N;
  BannerCallback : option BannerCallbackT;
  HostKeyCallback : option HostKeyCallbackT }.

(** [new(ssh.ClientConfig)]: the zero value. *)
Definition new_ClientConfig : ClientConfig :=
  {| Timeout := 0%Z; ConnLog := None; ClientVersion := ""; HelloOnly := false;
     KeyExchanges := nil; HostKeyAlgorithms := nil; Ciphers := nil; MACs := nil;
     Verbose := false; CollectExtensions := false; CollectUserAuth := false;
     DontAuthenticate := false;
     GexMinBits := 0%N; GexMaxBits := 0%N; GexPreferredBits := 0%N;
     BannerCallback := None; HostKeyCallback := None |}.

(** Field assignments [c.F = v]. *)
Definition set_Timeout (v : Z) (c : ClientConfig) : ClientConfig :=
  {| Timeout := v; ConnLog := ConnLog c; ClientVersion := ClientVersion c;
     HelloOnly := HelloOnly c; KeyExchanges := KeyExchanges c;
     HostKeyAlgorithms := HostKeyAlgorithms c; Ciphers := Ciphers c; MACs := MACs c;
     Verbose := Verbose c; CollectExtensions := CollectExtensions c;
     CollectUserAuth := CollectUserAuth c; DontAuthenticate := DontAuthenticate c;
     GexMinBits := GexMinBits c; GexMaxBits := GexMaxBits c;
     GexPreferredBits := GexPreferredBits c;
     BannerCallback := BannerCallback c; HostKeyCallback := HostKeyCallback c |}.

Definition set_ConnLog (v : option LogPtr) (c : ClientConfig) : ClientConfig :=
  {| Timeout := Timeout c; ConnLog := v; ClientVersion := ClientVersion c;
     HelloOnly := HelloOnly c; KeyExchanges := KeyExchanges c;
     HostKeyAlgorithms := HostKeyAlgorithms c; Ciphers := Ciphers c; MACs := MACs c;
     Verbose := Verbose c; CollectExtensions := CollectExtensions c;
     CollectUserAuth := CollectUserAuth c; DontAuthenticate := DontAuthenticate c;
     GexMinBits := GexMinBits c; GexMaxBits := GexMaxBits c;
     GexPreferredBits := GexPreferredBits c;
     BannerCallback := BannerCallback c; HostKeyCallback := HostKeyCallback c |}.

Definition set_ClientVersion (v : string) (c : ClientConfig) : ClientConfig :=
  {| Timeout := Timeout c; ConnLog := ConnLog c; ClientVersion := v;
     HelloOnly := HelloOnly c; KeyExchanges := KeyExchanges c;
     HostKeyAlgorithms := HostKeyAlgorithms c; Ciphers := Ciphers c; MACs := MACs c;
     Verbose := Verbose c; CollectExtensions := CollectExtensions c;
     CollectUserAuth := CollectUserAuth c; DontAuthenticate := DontAuthenticate c;
     GexMinBits := GexMinBits c; GexMaxBits := GexMaxBits c;
     GexPreferredBits := GexPreferredBits c;
     BannerCallback := BannerCallback c; HostKeyCallback := HostKeyCallback c |}.

Definition set_HelloOnly (v : bool) (c : ClientConfig) : ClientConfig :=
  {| Timeout := Timeout c; ConnLog := ConnLog c; ClientVersion := ClientVersion c;
     HelloOnly := v; KeyExchanges := KeyExchanges c;
     HostKeyAlgorithms := HostKeyAlgorithms c; Ciphers := Ciphers c; MACs := MACs c;
     Verbose := Verbose c; CollectExtensions := CollectExtensions c;
     CollectUserAuth := CollectUserAuth c; DontAuthenticate := DontAuthenticate c;
     GexMinBits := GexMinBits c; GexMaxBits := GexMaxBits c;
     GexPreferredBits := GexPreferredBits c;
     BannerCallback := BannerCallback c; HostKeyCallback := HostKeyCallback c |}.

Definition set_KeyExchanges (v : list string) (c : ClientConfig) : ClientConfig :=
  {| Timeout := Timeout c; ConnLog := ConnLog c; ClientVersion := ClientVersion c;
     HelloOnly := HelloOnly c; KeyExchanges := v;
     HostKeyAlgorithms := HostKeyAlgorithms c; Ciphers := Ciphers c; MACs := MACs c;
     Verbose := Verbose c; CollectExtensions := CollectExtensions c;
     CollectUserAuth := CollectUserAuth c; DontAuthenticate := DontAuthenticate c;
     GexMinBits := GexMinBits c; GexMaxBits := GexMaxBits c;
     GexPreferredBits := GexPreferredBits c;
     BannerCallback := BannerCallback c; HostKeyCallback := HostKeyCallback c |}.

Definition set_HostKeyAlgorithms (v : list string) (c : ClientConfig) : ClientConfig :=
  {| Timeout := Timeout c; ConnLog := ConnLog c; ClientVersion := ClientVersion c;
     HelloOnly := HelloOnly c; KeyExchanges := KeyExchanges c;
     HostKeyAlgorithms := v; Ciphers := Ciphers c; MACs := MACs c;
     Verbose := Verbose c; CollectExtensions := CollectExtensions c;
     CollectUserAuth := CollectUserAuth c; DontAuthenticate := DontAuthenticate c;
     GexMinBits := GexMinBits c; GexMaxBits := GexMaxBits c;
     GexPreferredBits := GexPreferredBits c;
     BannerCallback := BannerCallback c; HostKeyCallback := HostKeyCallback c |}.

Definition set_Ciphers (v : list string) (c : ClientConfig) : ClientConfig :=
  {| Timeout := Timeout c; ConnLog := ConnLog c; ClientVersion := ClientVersion c;
     HelloOnly := HelloOnly c; KeyExchanges := KeyExchanges c;
     HostKeyAlgorithms := HostKeyAlgorithms c; Ciphers := v; MACs := MACs c;
     Verbose := Verbose c; CollectExtensions := CollectExtensions c;
     CollectUserAuth := CollectUserAuth c; DontAuthenticate := DontAuthenticate c;
     GexMinBits := GexMinBits c; GexMaxBits := GexMaxBits c;
     GexPreferredBits := GexPreferredBits c;
     BannerCallback := BannerCallback c; HostKeyCallback := HostKeyCallback c |}.

Definition set_MACs (v : list string) (c : ClientConfig) : ClientConfig :=
  {| Timeout := Timeout c; ConnLog := ConnLog c; ClientVersion := ClientVersion c;
     HelloOnly := HelloOnly c; KeyExchanges := KeyExchanges c;
     HostKeyAlgorithms := HostKeyAlgorithms c; Ciphers := Ciphers c; MACs := v;
     Verbose := Verbose c; CollectExtensions := CollectExtensions c;
     CollectUserAuth := CollectUserAuth c; DontAuthenticate := DontAuthenticate c;
     GexMinBits := GexMinBits c; GexMaxBits := GexMaxBits c;
     GexPreferredBits := GexPreferredBits c;
     BannerCallback := BannerCallback c; HostKeyCallback := HostKeyCallback c |}.

Definition set_Verbose (v : bool) (c : ClientConfig) : ClientConfig :=
  {| Timeout := Timeout c; ConnLog := ConnLog c; ClientVersion := ClientVersion c;
     HelloOnly := HelloOnly c; KeyExchanges := KeyExchanges c;
     HostKeyAlgorithms := HostKeyAlgorithms c; Ciphers := Ciphers c; MACs := MACs c;
     Verbose := v; CollectExtensions := CollectExtensions c;
     CollectUserAuth := CollectUserAuth c; DontAuthenticate := DontAuthenticate c;
     GexMinBits := GexMinBits c; GexMaxBits := GexMaxBits c;
     GexPreferredBits := GexPreferredBits c;
     BannerCallback := BannerCallback c; HostKeyCallback := HostKeyCallback c |}.

Definition set_CollectExtensions (v : bool) (c : ClientConfig) : ClientConfig :=
  {| Timeout := Timeout c; ConnLog := ConnLog c; ClientVersion := ClientVersion c;
     HelloOnly := HelloOnly c; KeyExchanges := KeyExchanges c;
     HostKeyAlgorithms := HostKeyAlgorithms c; Ciphers := Ciphers c; MACs := MACs c;
     Verbose := Verbose c; CollectExtensions := v;
     CollectUserAuth := CollectUserAuth c; DontAuthenticate := DontAuthenticate c;
     GexMinBits := GexMinBits c; GexMaxBits := GexMaxBits c;
     GexPreferredBits := GexPreferredBits c;
     BannerCallback := BannerCallback c; HostKeyCallback := HostKeyCallback c |}.

Definition set_CollectUserAuth (v : bool) (c : ClientConfig) : ClientConfig :=
  {| Timeout := Timeout c; ConnLog := ConnLog c; ClientVersion := ClientVersion c;
     HelloOnly := HelloOnly c; KeyExchanges := KeyExchanges c;
     HostKeyAlgorithms := HostKeyAlgorithms c; Ciphers := Ciphers c; MACs := MACs c;
     Verbose := Verbose c; CollectExtensions := CollectExtensions c;
     CollectUserAuth := v; DontAuthenticate := DontAuthenticate c;
     GexMinBits := GexMinBits c; GexMaxBits := GexMaxBits c;
     GexPreferredBits := GexPreferredBits c;
     BannerCallback := BannerCallback c; HostKeyCallback := HostKeyCallback c |}.

Definition set_DontAuthenticate (v : bool) (c : ClientConfig) : ClientConfig :=
  {| Timeout := Timeout c; ConnLog := ConnLog c; ClientVersion := ClientVersion c;
     HelloOnly := HelloOnly c; KeyExchanges := KeyExchanges c;
     HostKeyAlgorithms := HostKeyAlgorithms c; Ciphers := Ciphers c; MACs := MACs c;
     Verbose := Verbose c; CollectExtensions := CollectExtensions c;
     CollectUserAuth := CollectUserAuth c; DontAuthenticate := v;
     GexMinBits := GexMinBits c; GexMaxBits := GexMaxBits c;
     GexPreferredBits := GexPreferredBits c;
     BannerCallback := BannerCallback c; HostKeyCallback := HostKeyCallback c |}.

Definition set_GexMinBits (v : N) (c : ClientConfig) : ClientConfig :=
  {| Timeout := Timeout c; ConnLog := ConnLog c; ClientVersion := ClientVersion c;
     HelloOnly := HelloOnly c; KeyExchanges := KeyExchanges c;
     HostKeyAlgorithms := HostKeyAlgorithms c; Ciphers := Ciphers c; MACs := MACs c;
     Verbose := Verbose c; CollectExtensions := CollectExtensions c;
     CollectUserAuth := CollectUserAuth c; DontAuthenticate := DontAuthenticate c;
     GexMinBits := v; GexMaxBits := GexMaxBits c;
     GexPreferredBits := GexPreferredBits c;
     BannerCallback := BannerCallback c; HostKeyCallback := HostKeyCallback c |}.

Definition set_GexMaxBits (v : N) (c : ClientConfig) : ClientConfig :=
  {| Timeout := Timeout c; ConnLog := ConnLog c; ClientVersion := ClientVersion c;
     HelloOnly := HelloOnly c; KeyExchanges := KeyExchanges c;
     HostKeyAlgorithms := HostKeyAlgorithms c; Ciphers := Ciphers c; MACs := MACs c;
     Verbose := Verbose c; CollectExtensions := CollectExtensions c;
     CollectUserAuth := CollectUserAuth c; DontAuthenticate := DontAuthenticate c;
     GexMinBits := GexMinBits c; GexMaxBits := v;
     GexPreferredBits := GexPreferredBits c;
     BannerCallback := BannerCallback c; HostKeyCallback := HostKeyCallback c |}.

Definition set_GexPreferredBits (v : N) (c : ClientConfig) : ClientConfig :=
  {| Timeout := Timeout c; ConnLog := ConnLog c; ClientVersion := ClientVersion c;
     HelloOnly := HelloOnly c; KeyExchanges := KeyExchanges c;
     HostKeyAlgorithms := HostKeyAlgorithms c; Ciphers := Ciphers c; MACs := MACs c;
     Verbose := Verbose c; CollectExtensions := CollectExtensions c;
     CollectUserAuth := CollectUserAuth c; DontAuthenticate := DontAuthenticate c;
     GexMinBits := GexMinBits c; GexMaxBits := GexMaxBits c;
     GexPreferredBits := v;
     BannerCallback := BannerCallback c; HostKeyCallback := HostKeyCallback c |}.

Definition set_BannerCallback (v : option BannerCallbackT) (c : ClientConfig) : ClientConfig :=
  {| Timeout := Timeout c; ConnLog := ConnLog c; ClientVersion := ClientVersion c;
     HelloOnly := HelloOnly c; KeyExchanges := KeyExchanges c;
     HostKeyAlgorithms := HostKeyAlgorithms c; Ciphers := Ciphers c; MACs := MACs c;
     Verbose := Verbose c; CollectExtensions := CollectExtensions c;
     CollectUserAuth := CollectUserAuth c; DontAuthenticate := DontAuthenticate c;
     GexMinBits := GexMinBits c; GexMaxBits := GexMaxBits c;
     GexPreferredBits := GexPreferredBits c;
     BannerCallback := v; HostKeyCallback := HostKeyCallback c |}.

Definition set_HostKeyCallback (v : option HostKeyCallbackT) (c : ClientConfig) : ClientConfig :=
  {| Timeout := Timeout c; ConnLog := ConnLog c; ClientVersion := ClientVersion c;
     HelloOnly := HelloOnly c; KeyExchanges := KeyExchanges c;
     HostKeyAlgorithms := HostKeyAlgorithms c; Ciphers := Ciphers c; MACs := MACs c;
     Verbose := Verbose c; CollectExtensions := CollectExtensions c;
     CollectUserAuth := CollectUserAuth c; DontAuthenticate := DontAuthenticate c;
     GexMinBits := GexMinBits c; GexMaxBits := GexMaxBits c;
     GexPreferredBits := GexPreferredBits c;
     BannerCallback := BannerCallback c; HostKeyCallback := v |}.

(** [ssh.InsecureIgnoreHostKey()]: a callback that accepts every host key. *)
Definition InsecureIgnoreHostKey : HostKeyCallbackT := fun _ => None.

(** Modelled from the spec: the helper [contains] (lib/ssh, its source is
    not at hand), which "membership-tests" a token against the supported
    set: some element of [list] is the string [e], byte for byte. *)
Definition contains (list : list string) (e : string) : bool :=
  existsb (String.eqb e) list.

(** The message of [validateAlgorithms]:
    [fmt.Sprintf(`algorithm not supported: "%s"`, alg)]. *)
Definition notSupported (alg : string) : string :=
  "algorithm not supported: " ++ dquote ++ alg ++ dquote.

(** The loop of [validateAlgorithms] over the tokens still to visit, with the
    slice [algs] built so far. *)
Fixpoint validateLoop (supported : list string) (toks : list string)
  (algs : list string) : list string * option error :=
  match toks with
  | [] => (algs, None)
  | alg :: rest =>
      let isValid := contains supported alg in
      if negb isValid then (nil, Some (errors_New (notSupported alg)))
      else validateLoop supported rest (algs ++ [alg])
  end.

(** [validateAlgorithms(value, supported)]. *)
Definition validateAlgorithms (value : string) (supported : list string)
  : list string * option error :=
  validateLoop supported (strings.Split value ",") nil.

Section Catalog.

(** The catalog: the package-level tables of supported algorithms. Their
    contents are declared elsewhere in lib/ssh; everything below holds for
    every catalog. *)
Variables supportedKexAlgos supportedHostKeyAlgos supportedCiphers supportedMACs
  : list string.

(** [MakeSSHConfig()]. *)
Definition MakeSSHConfig : ClientConfig :=
  let ret := new_ClientConfig in
  let ret := set_KeyExchanges supportedKexAlgos ret in
  let ret := set_HostKeyAlgorithms supportedHostKeyAlgos ret in
  let ret := set_Ciphers supportedCiphers ret in
  let ret := set_MACs supportedMACs ret in
  ret.

(** The setters have a pointer receiver: they take the configuration before
    the call and give the configuration after it, with the error. *)
Definition SetKexAlgorithms (c : ClientConfig) (value : string)
  : ClientConfig * option error :=
  let '(algs, err) := validateAlgorithms value supportedKexAlgos in
  match err with
  | Some e => (c, Some e)
  | None => (set_KeyExchanges algs c, None)
  end.

Definition SetHostKeyAlgorithms (c : ClientConfig) (value : string)
  : ClientConfig * option error :=
  let '(algs, err) := validateAlgorithms value supportedHostKeyAlgos in
  match err with
  | Some e => (c, Some e)
  | None => (set_HostKeyAlgorithms algs c, None)
  end.

Definition SetCiphers (c : ClientConfig) (value : string)
  : ClientConfig * option error :=
  let '(algs, err) := validateAlgorithms value supportedCiphers in
  match err with
  | Some e => (c, Some e)
  | None => (set_Ciphers algs c, None)
  end.

Definition SetMACs (c : ClientConfig) (value : string)
  : ClientConfig * option error :=
  let '(algs, err) := validateAlgorithms value supportedMACs in
  match err with
  | Some e => (c, Some e)
  | None => (set_MACs algs c, None)
  end.

End Catalog.

(** *** The handshake driver *)

(** What the driver transmits. *)
Inductive Msg : Type :=
| MsgVersion (id : string)
| MsgKexInit (kex hostKey ciphers macs : list string)
| MsgGexRequest (min preferred max : N)
| MsgUserAuthRequest (method : string).

(** The handshake-level connection handed back by the driver, as the probe
    sees it: what [Close] answers. *)
Record Client : Type := { Close : option error }.

(** The driver works on the log and on the list of what it has sent. *)
Definition DriverState : Type := (HandshakeLog * list Msg)%type.

Definition set_AlgorithmSelection (v : option Algorithms) (l : HandshakeLog) : HandshakeLog :=
  {| Banner := Banner l; AlgorithmSelection := v;
     ServerHostKey := ServerHostKey l; Extensions := Extensions l;
     UserAuth := UserAuth l |}.

Definition set_ServerHostKey (v : option string) (l : HandshakeLog) : HandshakeLog :=
  {| Banner := Banner l; AlgorithmSelection := AlgorithmSelection l;
     ServerHostKey := v; Extensions := Extensions l;
     UserAuth := UserAuth l |}.

Definition set_Extensions (v : option (list string)) (l : HandshakeLog) : HandshakeLog :=
  {| Banner := Banner l; AlgorithmSelection := AlgorithmSelection l;
     ServerHostKey := ServerHostKey l; Extensions := v;
     UserAuth := UserAuth l |}.

Definition set_UserAuth (v : option (list string)) (l : HandshakeLog) : HandshakeLog :=
  {| Banner := Banner l; AlgorithmSelection := AlgorithmSelection l;
     ServerHostKey := ServerHostKey l; Extensions := Extensions l;
     UserAuth := v |}.

(** The error of a phase: it names the phase and wraps the cause. *)
Definition phaseError (phase : string) (cause : error) : error :=
  Errorf_w (phase ++ ": ") cause.

(** The algorithm agreed on in one category: the first of the client's
    preference list that the server offers too. *)
Definition findAgreed (client server : list string) : option string :=
  find (contains server) client.

(** A group-exchange variant of Diffie-Hellman key exchange. *)
Definition isGroupExchange (kex : string) : bool :=
  String.prefix "diffie-hellman-group-exchange-" kex.

(** Modelled from the spec: the phase VersionExchange of the handshake driver
    (lib/ssh, its source is not at hand). It writes the client's
    identification line and reads the server's; on receipt it calls the
    banner callback of the configuration. A failure is terminal. *)
Definition VersionExchange (peer : net.Peer) (config : ClientConfig)
  (st : DriverState) : DriverState * option error :=
  let '(log, sent) := st in
  let sent := sent ++ [MsgVersion (ClientVersion config)] in
  match net.peerVersion peer with
  | inr cause => ((log, sent), Some (phaseError "version exchange" cause))
  | inl banner =>
      match BannerCallback config with
      | None => ((log, sent), None)
      | Some callback =>
          let '(log, err) := callback banner log in
          match err with
          | Some cause => ((log, sent), Some (phaseError "version exchange" cause))
          | None => ((log, sent), None)
          end
      end
  end.

(** Modelled from the spec: the phase KeyExchange. The algorithms are
    negotiated from the four preference lists of the configuration and from
    nothing else; without a common algorithm the phase fails. A
    group-exchange method asks for a group between [GexMinBits] and
    [GexMaxBits], preferring [GexPreferredBits]. The host key goes to the
    host key callback, which is the only check made on it. *)
Definition KeyExchange (peer : net.Peer) (config : ClientConfig)
  (st : DriverState) : DriverState * option error :=
  let '(log, sent) := st in
  let sent := sent ++ [MsgKexInit (KeyExchanges config) (HostKeyAlgorithms config)
                                  (Ciphers config) (MACs config)] in
  match net.peerKexInit peer with
  | inr cause => ((log, sent), Some (phaseError "key exchange" cause))
  | inl (sKex, sHostKey, sCiphers, sMACs) =>
      match findAgreed (KeyExchanges config) sKex,
            findAgreed (HostKeyAlgorithms config) sHostKey,
            findAgreed (Ciphers config) sCiphers,
            findAgreed (MACs config) sMACs with
      | Some kex, Some hostKey, Some cipher, Some mac =>
          let log := set_AlgorithmSelection
                       (Some {| Kex := kex; HostKey := hostKey;
                                Cipher := cipher; MAC := mac |}) log in
          let sent :=
            if isGroupExchange kex
            then sent ++ [MsgGexRequest (GexMinBits config) (GexPreferredBits config)
                                        (GexMaxBits config)]
            else sent in
          match net.peerKexReply peer with
          | inr cause => ((log, sent), Some (phaseError "key exchange" cause))
          | inl key =>
              let log := set_ServerHostKey (Some key) log in
              match HostKeyCallback config with
              | None => ((log, sent), None)
              | Some callback =>
                  match callback key with
                  | Some cause => ((log, sent), Some (phaseError "key exchange" cause))
                  | None => ((log, sent), None)
                  end
              end
          end
      | _, _, _, _ =>
          ((log, sent),
           Some (phaseError "key exchange" (mkError Handshake "no common algorithm")))
      end
  end.

(** Modelled from the spec: the phase ExtensionNegotiation. It reads the
    extension advertisement of the server and records the names; a server
    without extensions gives the empty list, which is no error. *)
Definition ExtensionNegotiation (peer : net.Peer) (config : ClientConfig)
  (st : DriverState) : DriverState * option error :=
  let '(log, sent) := st in
  match net.peerExtInfo peer with
  | inr cause => ((log, sent), Some (phaseError "extension negotiation" cause))
  | inl names => ((set_Extensions (Some names) log, sent), None)
  end.

(** Modelled from the spec: the phase UserAuthProbe. It sends one
    authentication request, of the method "none", records the methods the
    server names in its rejection, and stops. *)
Definition UserAuthProbe (peer : net.Peer) (config : ClientConfig)
  (st : DriverState) : DriverState * option error :=
  let '(log, sent) := st in
  let sent := sent ++ [MsgUserAuthRequest "none"] in
  match net.peerUserAuth peer with
  | inr cause => ((log, sent), Some (phaseError "userauth probe" cause))
  | inl methods => ((set_UserAuth (Some methods) log, sent), None)
  end.

(** A phase of the driver. *)
Definition Phase : Type :=
  net.Peer -> ClientConfig -> DriverState -> DriverState * option error.

(** Modelled from the spec: the phases of one handshake, in order:
    VersionExchange, KeyExchange, ExtensionNegotiation if the extensions are
    collected, UserAuthProbe if the authentication methods are collected.
    [HelloOnly] stops the machine after VersionExchange. *)
Definition phases (config : ClientConfig) : list Phase :=
  VersionExchange ::
  (if HelloOnly config then []
   else KeyExchange ::
        (if CollectExtensions config then [ExtensionNegotiation] else []) ++
        (if CollectUserAuth config then [UserAuthProbe] else [])).

(** The phases run one after the other; a phase starts only if the one before
    succeeded, and the first failure ends the run with the state it left. *)
Fixpoint runPhases (ps : list Phase) (peer : net.Peer) (config : ClientConfig)
  (st : DriverState) : DriverState * option error :=
  match ps with
  | [] => (st, None)
  | p :: ps' =>
      let '(st', err) := p peer config st in
      match err with
      | Some e => (st', Some e)
      | None => runPhases ps' peer config st'
      end
  end.

(** The type of a handshake driver: from the connection, the address, the
    configuration and the log that [ConnLog] and the banner callback point
    to, the log after the handshake, what was transmitted, and the
    handshake-level connection or the error. *)
Definition Driver : Type :=
  net.Conn -> string -> ClientConfig -> HandshakeLog ->
  HandshakeLog * list Msg * (Client + error).

(** Modelled from the spec: [NewClientConn] (lib/ssh, its source is not at
    hand), the handshake driver of section 4.3: it runs the phases
    over the connection and, when all of them succeeded, hands back the
    handshake-level connection. *)
Definition NewClientConn : Driver :=
  fun c addr config log =>
    let '((log', sent), err) := runPhases (phases config) (net.remote c) config (log, []) in
    match err with
    | Some e => (log', sent, inr e)
    | None => (log', sent, inl {| Close := net.peerClosed (net.remote c) |})
    end.

End ssh.

(** ** Package [zgrab2]: what the module uses of the framework *)

Module zgrab2.

(** Modelled from the spec: the status taxonomy (package zgrab2, its source
    is not at hand): success, connection-error, handshake-error,
    timeout, unknown-error. [SCAN_HANDSHAKE_ERROR] is the name [Scan] uses. *)
Inductive ScanStatus : Type :=
| SCAN_SUCCESS
| SCAN_CONNECTION_ERROR
| SCAN_HANDSHAKE_ERROR
| SCAN_TIMEOUT
| SCAN_UNKNOWN_ERROR.

(** Modelled from the spec: [TryGetScanStatus] (package zgrab2, its source
    is not at hand), the status classifier of section 4.4: no error
    is success; an error of connection establishment is connection-error; an
    error of the handshake phases is handshake-error; an error due to the
    timeout boundary expiring is timeout; any other error is the generic
    scan error. Wrapping with [%w] keeps the cause. *)
Definition TryGetScanStatus (err : option error) : ScanStatus :=
  match err with
  | None => SCAN_SUCCESS
  | Some e =>
      match rootKind e with
      | Connection => SCAN_CONNECTION_ERROR
      | Handshake => SCAN_HANDSHAKE_ERROR
      | DeadlineExceeded => SCAN_TIMEOUT
      | Uncategorized => SCAN_UNKNOWN_ERROR
      end
  end.

(** A target as [Scan] sees it: what its methods [Host()] and [String()]
    answer, and its field [Port]. *)
Record ScanTarget : Type := {
  Host : string;
  Port : N;
  String : string }.

(** The dialer as [Scan] sees it: what [Dial(ctx, target)] answers, an
    established connection or an error. *)
Record DialerGroup : Type := {
  Dial : ScanTarget -> net.Conn + error }.

End zgrab2.

(** [strconv.Itoa] of a number that is not negative. *)
Definition Itoa (n : N) : string := NilEmpty.string_of_uint (N.to_uint n).

(** ** Package [modules]: the SSH scanner (modules/ssh.go) *)

Module modules.

Import zgrab2.

(** [SSHFlags], with the fields of the embedded [zgrab2.BaseFlags] that the
    module reads ([Name], [Trigger], [ConnectTimeout], [Verbose]). *)
Record SSHFlags : Type := {
  Name : string;
  Trigger : string;
  ConnectTimeout : Z;
  Verbose : bool;
  ClientID : string;
  KexAlgorithms : string;
  HostKeyAlgorithms : string;
  Ciphers : string;
  MACs : string;
  CollectExtensions : bool;
  CollectUserAuth : bool;
  GexMinBits : N;
  GexMaxBits : N;
  GexPreferredBits : N;
  HelloOnly : bool }.

Record SSHScanner : Type := { config : SSHFlags }.

(** *** The effects of [Scan] *)

(** What [Scan] does to the world outside, in order. *)
Inductive Event : Type :=
| EvDial (target : ScanTarget)                         (* dialGroup.Dial *)
| EvSetDeadline (d : Z)                                (* conn.SetDeadline, d from now *)
| EvNewClientConn (addr : string) (config : ssh.ClientConfig)  (* ssh.NewClientConn *)
| EvSend (m : ssh.Msg)                                 (* sent by the driver *)
| EvClose                                              (* sshClient.Close *)
| EvLogErrorf (msg : string)                           (* log.Errorf *)
| EvLogFatal (msg : string).                           (* log.Fatal *)

(** The store of one invocation: the log that [data] points to and the
    events so far. *)
Record World : Type := {
  heap : ssh.HandshakeLog;
  trace : list Event }.

(** How a computation ends: it returns, or the process exits. *)
Inductive Outcome (A : Type) : Type :=
| Returned (a : A)
| Exited (code : Z).

Arguments Returned {A} a.
Arguments Exited {A} code.

(** Computations over the store that may end the process. *)
Definition M (A : Type) : Type := World -> Outcome A * World.

Definition ret {A : Type} (a : A) : M A := fun w => (Returned a, w).

Definition bind {A B : Type} (m : M A) (k : A -> M B) : M B :=
  fun w =>
    match m w with
    | (Returned a, w') => k a w'
    | (Exited code, w') => (Exited code, w')
    end.

Notation "x <- m ;; k" := (bind m (fun x => k))
  (at level 61, m at next level, right associativity).
Notation "m ;; k" := (bind m (fun _ => k))
  (at level 61, right associativity).

Definition emit (e : Event) : M unit :=
  fun w => (Returned tt, {| heap := heap w; trace := trace w ++ [e] |}).

(** [new(ssh.HandshakeLog)], bound to [data]. *)
Definition new_data : M unit :=
  fun w => (Returned tt, {| heap := ssh.new_HandshakeLog; trace := trace w |}).

(** The log that [data] points to. *)
Definition load_data : M ssh.HandshakeLog := fun w => (Returned (heap w), w).

(** [log.Fatal(err)]: logs the error and exits with status 1. *)
Definition log_Fatal {A : Type} (err : error) : M A :=
  fun w => (Exited 1, {| heap := heap w; trace := trace w ++ [EvLogFatal (Error err)] |}).

(** [log.Errorf(...)], with the formatted message. *)
Definition log_Errorf (msg : string) : M unit := emit (EvLogErrorf msg).

(** [if err != nil { log.Fatal(err) }]. *)
Definition fatalIf (err : option error) : M unit :=
  match err with
  | Some e => log_Fatal e
  | None => ret tt
  end.

(** The banner callback of [Scan], the closure
    [func(banner string) error { data.Banner = strings.TrimSpace(banner); return nil }],
    on the log that [data] points to. *)
Definition bannerCallback : ssh.BannerCallbackT :=
  fun banner data => (ssh.set_Banner (strings.TrimSpace banner) data, None).

Section Scan.

Variables supportedKexAlgos supportedHostKeyAlgos supportedCiphers supportedMACs
  : list string.

(** The handshake driver that [ssh.NewClientConn] stands for. *)
Variable NewClientConn : ssh.Driver.

(** The call [ssh.NewClientConn(conn, rhost, sshConfig)]: the driver works on
    the log that [sshConfig.ConnLog] and the banner callback point to. *)
Definition call_NewClientConn (conn : net.Conn) (rhost : string)
  (sshConfig : ssh.ClientConfig) : M (ssh.Client + error) :=
  fun w =>
    let '(log, sent, res) := NewClientConn conn rhost sshConfig (heap w) in
    (Returned res,
     {| heap := log;
        trace := trace w ++ EvNewClientConn rhost sshConfig :: map EvSend sent |}).

(** The deferred closure of [Scan]. It assigns the error of [Close] to the
    local variable [err] of [Scan]; it gives the value assigned. *)
Definition deferred_Close (sshClient : ssh.Client) (target : ScanTarget)
  : M (option error) :=
  emit EvClose ;;
  let err := ssh.Close sshClient in
  match err with
  | Some e =>
      if negb (strings.Contains (Error e) "use of closed network connection")
      then log_Errorf ("error closing SSH client for target " ++ String target
                         ++ ": " ++ Error e) ;; ret err
      else ret err
  | None => ret err
  end.

(** [SSHScanner.Scan(ctx, dialGroup, target)]. The second result is the
    value returned as [any]: nil, or the pointer [data], given by the log it
    points to when [Scan] is over. *)
Definition Scan (s : SSHScanner) (dialGroup : DialerGroup) (target : ScanTarget)
  : M (ScanStatus * option ssh.HandshakeLog * option error) :=
  new_data ;;
  let portStr := Itoa (Port target) in
  let rhost := net.JoinHostPort (Host target) portStr in
  let sshConfig := ssh.new_ClientConfig in
  let sshConfig := ssh.set_Timeout (ConnectTimeout (config s)) sshConfig in
  let sshConfig := ssh.set_ConnLog (Some ssh.ptr_data) sshConfig in
  let sshConfig := ssh.set_ClientVersion (ClientID (config s)) sshConfig in
  let sshConfig := ssh.set_HelloOnly (HelloOnly (config s)) sshConfig in
  let '(sshConfig, err) :=
    ssh.SetHostKeyAlgorithms supportedHostKeyAlgos sshConfig (HostKeyAlgorithms (config s)) in
  fatalIf err ;;
  let '(sshConfig, err) :=
    ssh.SetKexAlgorithms supportedKexAlgos sshConfig (KexAlgorithms (config s)) in
  fatalIf err ;;
  let '(sshConfig, err) :=
    ssh.SetCiphers supportedCiphers sshConfig (Ciphers (config s)) in
  fatalIf err ;;
  let '(sshConfig, err) :=
    ssh.SetMACs supportedMACs sshConfig (MACs (config s)) in
  fatalIf err ;;
  let sshConfig := ssh.set_Verbose (Verbose (config s)) sshConfig in
  let sshConfig := ssh.set_CollectExtensions (CollectExtensions (config s)) sshConfig in
  let sshConfig := ssh.set_CollectUserAuth (CollectUserAuth (config s)) sshConfig in
  let sshConfig := ssh.set_DontAuthenticate true sshConfig in
  let sshConfig := ssh.set_GexMinBits (GexMinBits (config s)) sshConfig in
  let sshConfig := ssh.set_GexMaxBits (GexMaxBits (config s)) sshConfig in
  let sshConfig := ssh.set_GexPreferredBits (GexPreferredBits (config s)) sshConfig in
  let sshConfig := ssh.set_BannerCallback (Some bannerCallback) sshConfig in
  let sshConfig := ssh.set_HostKeyCallback (Some ssh.InsecureIgnoreHostKey) sshConfig in
  emit (EvDial target) ;;
  match Dial dialGroup target with
  | inr err =>
      let err := Errorf_w ("failed to dial target " ++ String target ++ ": ") err in
      ret (TryGetScanStatus (Some err), None, Some err)
  | inl conn =>
      err <- (if negb (ConnectTimeout (config s) =? 0)%Z
              then emit (EvSetDeadline (ConnectTimeout (config s))) ;;
                   ret (net.SetDeadline conn (ConnectTimeout (config s)))
              else ret None) ;;
      match err with
      | Some err =>
          ret (TryGetScanStatus (Some err), None,
               Some (Errorf_w "failed to set connection deadline: " err))
      | None =>
          res <- call_NewClientConn conn rhost sshConfig ;;
          match res with
          | inr err =>
              ret (SCAN_HANDSHAKE_ERROR, None,
                   Some (Errorf_w "failed to create SSH client connection: " err))
          | inl sshClient =>
              (* here the local [err] is nil; the operands of the return
                 statement are evaluated, then the deferred closure runs; the
                 results are unnamed, so what it assigns to [err] is not
                 returned *)
              let err := None in
              let status := TryGetScanStatus err in
              _ <- deferred_Close sshClient target ;;
              data <- load_data ;;
              ret (status, Some data, err)
          end
      end
  end.

End Scan.

End modules.

(** ** Vocabulary of the statements *)

(** The preference string [value] is accepted against [supported]. *)
Definition validated (supported : list string) (value : string) : Prop :=
  snd (ssh.validateAlgorithms value supported) = None.

(** No byte of [s] is [c]. *)
Fixpoint free_of (c : ascii) (s : string) : bool :=
  match s with
  | EmptyString => true
  | String c' s' => negb (Ascii.eqb c' c) && free_of c s'
  end.

(** The address [Scan] computes for a target. *)
Definition rhostOf (target : zgrab2.ScanTarget) : string :=
  net.JoinHostPort (zgrab2.Host target) (Itoa (zgrab2.Port target)).

(** The configuration that [Scan] has assembled when it dials: the flags
    copied, the four validated lists, the policy flag, the two callbacks. *)
Definition probeConfig (supportedKexAlgos supportedHostKeyAlgos supportedCiphers
  supportedMACs : list string) (f : modules.SSHFlags) : ssh.ClientConfig :=
  {| ssh.Timeout := modules.ConnectTimeout f;
     ssh.ConnLog := Some ssh.ptr_data;
     ssh.ClientVersion := modules.ClientID f;
     ssh.HelloOnly := modules.HelloOnly f;
     ssh.KeyExchanges :=
       fst (ssh.validateAlgorithms (modules.KexAlgorithms f) supportedKexAlgos);
     ssh.HostKeyAlgorithms :=
       fst (ssh.validateAlgorithms (modules.HostKeyAlgorithms f) supportedHostKeyAlgos);
     ssh.Ciphers := fst (ssh.validateAlgorithms (modules.Ciphers f) supportedCiphers);
     ssh.MACs := fst (ssh.validateAlgorithms (modules.MACs f) supportedMACs);
     ssh.Verbose := modules.Verbose f;
     ssh.CollectExtensions := modules.CollectExtensions f;
     ssh.CollectUserAuth := modules.CollectUserAuth f;
     ssh.DontAuthenticate := true;
     ssh.GexMinBits := modules.GexMinBits f;
     ssh.GexMaxBits := modules.GexMaxBits f;
     ssh.GexPreferredBits := modules.GexPreferredBits f;
     ssh.BannerCallback := Some modules.bannerCallback;
     ssh.HostKeyCallback := Some ssh.InsecureIgnoreHostKey |}.

(** The dialer gives [conn] for the target and the deadline, if one is
    configured, is set on it without error. *)
Definition connected (f : modules.SSHFlags) (dialGroup : zgrab2.DialerGroup)
  (target : zgrab2.ScanTarget) (conn : net.Conn) : Prop :=
  zgrab2.Dial dialGroup target = inl conn /\
  (modules.ConnectTimeout f <> 0%Z ->
   net.SetDeadline conn (modules.ConnectTimeout f) = None).

(** The events of dialing and of setting the deadline. *)
Definition dialEvents (f : modules.SSHFlags) (target : zgrab2.ScanTarget)
  : list modules.Event :=
  modules.EvDial target ::
  (if (modules.ConnectTimeout f =? 0)%Z then []
   else [modules.EvSetDeadline (modules.ConnectTimeout f)]).

(** What the deferred closure logs for the answer of [Close]: nothing when
    there is no error or when its message has the text of a connection that
    was closed already, one [log.Errorf] otherwise. *)
Definition closeEvents (target : zgrab2.ScanTarget) (closeErr : option error)
  : list modules.Event :=
  match closeErr with
  | None => []
  | Some e =>
      if strings.Contains (Error e) "use of closed network connection" then []
      else [modules.EvLogErrorf ("error closing SSH client for target "
                                   ++ zgrab2.String target ++ ": " ++ Error e)]
  end.

(** A message that carries an authentication credential: an authentication
    request of a method other than "none". *)
Definition carriesCredential (m : ssh.Msg) : bool :=
  match m with
  | ssh.MsgUserAuthRequest method => negb (String.eqb method "none")
  | _ => false
  end.

(** An event of network input or output. *)
Definition isNetwork (e : modules.Event) : bool :=
  match e with
  | modules.EvLogErrorf _ | modules.EvLogFatal _ => false
  | _ => true
  end.

(** ** Sample data for the concrete runs *)

Module sample.

Definition CR : string := String.String (ascii_of_nat 13) EmptyString.
Definition LF : string := String.String (ascii_of_nat 10) EmptyString.

(** The defaults of [SSHFlags], from its struct tags, with a connection
    timeout of ten seconds. *)
Definition flags : modules.SSHFlags :=
  {| modules.Name := "ssh";
     modules.Trigger := "";
     modules.ConnectTimeout := 10000000000%Z;
     modules.Verbose := false;
     modules.ClientID := "SSH-2.0-Go";
     modules.KexAlgorithms := "curve25519-sha256,curve25519-sha256@libssh.org,ecdh-sha2-nistp256,ecdh-sha2-nistp384,ecdh-sha2-nistp521,diffie-hellman-group14-sha256,diffie-hellman-group14-sha1,diffie-hellman-group1-sha1,diffie-hellman-group-exchange-sha256,diffie-hellman-group-exchange-sha1";
     modules.HostKeyAlgorithms := "ssh-ed25519,ecdsa-sha2-nistp256,ecdsa-sha2-nistp384,ecdsa-sha2-nistp521,rsa-sha2-512,rsa-sha2-256,ssh-rsa,ssh-dss,ssh-ed25519-cert-v01@openssh.com,ecdsa-sha2-nistp256-cert-v01@openssh.com,ecdsa-sha2-nistp384-cert-v01@openssh.com,ecdsa-sha2-nistp521-cert-v01@openssh.com,rsa-sha2-512-cert-v01@openssh.com,rsa-sha2-256-cert-v01@openssh.com,ssh-rsa-cert-v01@openssh.com,ssh-dss-cert-v01@openssh.com";
     modules.Ciphers := "chacha20-poly1305@openssh.com,aes128-gcm@openssh.com,aes256-gcm@openssh.com,aes128-ctr,aes192-ctr,aes256-ctr,aes128-cbc,arcfour256,arcfour128,arcfour,3des-cbc";
     modules.MACs := "hmac-sha2-256-etm@openssh.com,hmac-sha2-256,hmac-sha1,hmac-sha1-96";
     modules.CollectExtensions := false;
     modules.CollectUserAuth := false;
     modules.GexMinBits := 1024;
     modules.GexMaxBits := 8192;
     modules.GexPreferredBits := 2048;
     modules.HelloOnly := false |}.

(** A catalog in which the defaults are supported. *)
Definition kexAlgos : list string := strings.Split (modules.KexAlgorithms flags) ",".
Definition hostKeyAlgos : list string := strings.Split (modules.HostKeyAlgorithms flags) ",".
Definition ciphers : list string := strings.Split (modules.Ciphers flags) ",".
Definition macs : list string := strings.Split (modules.MACs flags) ",".

(** The defaults with another cipher preference. *)
Definition withCiphers (value : string) : modules.SSHFlags :=
  {| modules.Name := modules.Name flags;
     modules.Trigger := modules.Trigger flags;
     modules.ConnectTimeout := modules.ConnectTimeout flags;
     modules.Verbose := modules.Verbose flags;
     modules.ClientID := modules.ClientID flags;
     modules.KexAlgorithms := modules.KexAlgorithms flags;
     modules.HostKeyAlgorithms := modules.HostKeyAlgorithms flags;
     modules.Ciphers := value;
     modules.MACs := modules.MACs flags;
     modules.CollectExtensions := modules.CollectExtensions flags;
     modules.CollectUserAuth := modules.CollectUserAuth flags;
     modules.GexMinBits := modules.GexMinBits flags;
     modules.GexMaxBits := modules.GexMaxBits flags;
     modules.GexPreferredBits := modules.GexPreferredBits flags;
     modules.HelloOnly := modules.HelloOnly flags |}.

Definition target : zgrab2.ScanTarget :=
  {| zgrab2.Host := "192.0.2.7"; zgrab2.Port := 22; zgrab2.String := "192.0.2.7:22" |}.

Definition EOF : error := mkError Uncategorized "EOF".
Definition ioTimeout : error := mkError DeadlineExceeded "i/o timeout".

(** A server that sends its banner and closes the connection. *)
Definition closesAfterBanner : net.Peer :=
  {| net.peerVersion := inl ("SSH-2.0-OpenSSH_9.0" ++ CR ++ LF)%string;
     net.peerKexInit := inr EOF;
     net.peerKexReply := inr EOF;
     net.peerExtInfo := inr EOF;
     net.peerUserAuth := inr EOF;
     net.peerClosed := None |}.

(** A server that sends its banner and then nothing until the deadline. *)
Definition stallsAfterBanner : net.Peer :=
  {| net.peerVersion := inl ("SSH-2.0-OpenSSH_9.0" ++ CR ++ LF)%string;
     net.peerKexInit := inr ioTimeout;
     net.peerKexReply := inr ioTimeout;
     net.peerExtInfo := inr ioTimeout;
     net.peerUserAuth := inr ioTimeout;
     net.peerClosed := None |}.

(** A server that completes the handshake and closes first: [Close] then
    answers [closeErr]. *)
Definition completes (closeErr : option error) : net.Peer :=
  {| net.peerVersion := inl ("SSH-2.0-OpenSSH_9.0" ++ CR ++ LF)%string;
     net.peerKexInit :=
       inl (["curve25519-sha256"], ["ssh-ed25519"],
            ["aes128-ctr"], ["hmac-sha2-256"]);
     net.peerKexReply := inl "host-key-blob";
     net.peerExtInfo := inl [];
     net.peerUserAuth := inl ["publickey"; "password"];
     net.peerClosed := closeErr |}.

Definition connTo (peer : net.Peer) : net.Conn :=
  {| net.SetDeadline := fun _ => None; net.remote := peer |}.

(** A dialer that reaches [peer]. *)
Definition dials (peer : net.Peer) : zgrab2.DialerGroup :=
  {| zgrab2.Dial := fun _ => inl (connTo peer) |}.

(** A dialer that fails with [err]. *)
Definition dialFails (err : error) : zgrab2.DialerGroup :=
  {| zgrab2.Dial := fun _ => inr err |}.

(** The store before [Scan] starts. *)
Definition world0 : modules.World :=
  {| modules.heap := ssh.new_HandshakeLog; modules.trace := [] |}.

(** [Scan] with the sample catalog and the driver of the spec. *)
Definition Scan := modules.Scan kexAlgos hostKeyAlgos ciphers macs ssh.NewClientConn.

Definition scanner : modules.SSHScanner := {| modules.config := flags |}.

(** The identification line of the sample servers, as read from the wire. *)
Definition bannerLine : string := "SSH-2.0-OpenSSH_9.0" ++ CR ++ LF.

(** The log with the banner of the sample servers and nothing else. *)
Definition bannerOnlyLog : ssh.HandshakeLog :=
  {| ssh.Banner := "SSH-2.0-OpenSSH_9.0";
     ssh.AlgorithmSelection := None;
     ssh.ServerHostKey := None;
     ssh.Extensions := None;
     ssh.UserAuth := None |}.

(** The log of a completed handshake with the sample server. *)
Definition completeLog : ssh.HandshakeLog :=
  {| ssh.Banner := "SSH-2.0-OpenSSH_9.0";
     ssh.AlgorithmSelection :=
       Some {| ssh.Kex := "curve25519-sha256"; ssh.HostKey := "ssh-ed25519";
               ssh.Cipher := "aes128-ctr"; ssh.MAC := "hmac-sha2-256" |};
     ssh.ServerHostKey := Some "host-key-blob";
     ssh.Extensions := None;
     ssh.UserAuth := None |}.

(** The error of closing a connection that the peer closed first. *)
Definition alreadyClosed : error :=
  mkError Connection "close tcp 192.0.2.7:22: use of closed network connection".

(** Another error of closing. *)
Definition brokenPipe : error :=
  mkError Connection "write tcp 192.0.2.7:22: broken pipe".

End sample.

(** ** The rest of modules/ssh.go: the module and the interface of the scanner *)

(** The error of the first preference string that [Scan] rejects, in the
    order of its checks: host key, key exchange, cipher, MAC. *)
Definition firstRejected (supportedKexAlgos supportedHostKeyAlgos supportedCiphers
  supportedMACs : list string) (f : modules.SSHFlags) : option error :=
  match snd (ssh.validateAlgorithms (modules.HostKeyAlgorithms f) supportedHostKeyAlgos) with
  | Some e => Some e
  | None =>
      match snd (ssh.validateAlgorithms (modules.KexAlgorithms f) supportedKexAlgos) with
      | Some e => Some e
      | None =>
          match snd (ssh.validateAlgorithms (modules.Ciphers f) supportedCiphers) with
          | Some e => Some e
          | None => snd (ssh.validateAlgorithms (modules.MACs f) supportedMACs)
          end
      end
  end.

(** The event is the call of [Close]. *)
Definition isClose (e : modules.Event) : bool :=
  match e with
  | modules.EvClose => true
  | _ => false
  end.

(** The event is a call of [SetDeadline]. *)
Definition isSetDeadline (e : modules.Event) : bool :=
  match e with
  | modules.EvSetDeadline _ => true
  | _ => false
  end.

(** The event is a call of the handshake driver. *)
Definition isNewClientConn (e : modules.Event) : bool :=
  match e with
  | modules.EvNewClientConn _ _ => true
  | _ => false
  end.

(** The event is a call of [log.Errorf]. *)
Definition isLogErrorf (e : modules.Event) : bool :=
  match e with
  | modules.EvLogErrorf _ => true
  | _ => false
  end.

Section ScanCase.

Variables supportedKexAlgos supportedHostKeyAlgos supportedCiphers supportedMACs
  : list string.
Variable NewClientConn : ssh.Driver.
Variable s : modules.SSHScanner.
Variable dialGroup : zgrab2.DialerGroup.
Variable target : zgrab2.ScanTarget.

Local Abbreviation f := (modules.config s).
Local Abbreviation sshConfig :=
  (probeConfig supportedKexAlgos supportedHostKeyAlgos supportedCiphers
     supportedMACs f).
Local Abbreviation rhost := (rhostOf target).
Local Abbreviation allValidated :=
  (validated supportedHostKeyAlgos (modules.HostKeyAlgorithms f) /\
   validated supportedKexAlgos (modules.KexAlgorithms f) /\
   validated supportedCiphers (modules.Ciphers f) /\
   validated supportedMACs (modules.MACs f)).
Local Abbreviation rejected :=
  (firstRejected supportedKexAlgos supportedHostKeyAlgos supportedCiphers
     supportedMACs f).

(** The five ways a run of [Scan] goes, each with what is returned, the log
    in the store and the events of the run. *)
Inductive ScanCase
  : modules.Outcome (zgrab2.ScanStatus * option ssh.HandshakeLog * option error)
    -> ssh.HandshakeLog -> list modules.Event -> Prop :=
| case_fatal : forall err,
    rejected = Some err ->
    ScanCase (modules.Exited 1) ssh.new_HandshakeLog
      [modules.EvLogFatal (Error err)]
| case_dial : forall err,
    allValidated ->
    zgrab2.Dial dialGroup target = inr err ->
    ScanCase
      (modules.Returned
         (zgrab2.TryGetScanStatus
            (Some (Errorf_w ("failed to dial target " ++ zgrab2.String target ++ ": ")
                     err)),
          None,
          Some (Errorf_w ("failed to dial target " ++ zgrab2.String target ++ ": ") err)))
      ssh.new_HandshakeLog [modules.EvDial target]
| case_deadline : forall conn err,
    allValidated ->
    zgrab2.Dial dialGroup target = inl conn ->
    modules.ConnectTimeout f <> 0%Z ->
    net.SetDeadline conn (modules.ConnectTimeout f) = Some err ->
    ScanCase
      (modules.Returned
         (zgrab2.TryGetScanStatus (Some err), None,
          Some (Errorf_w "failed to set connection deadline: " err)))
      ssh.new_HandshakeLog (dialEvents f target)
| case_handshake : forall conn log sent err,
    allValidated ->
    connected f dialGroup target conn ->
    NewClientConn conn rhost sshConfig ssh.new_HandshakeLog = (log, sent, inr err) ->
    ScanCase
      (modules.Returned
         (zgrab2.SCAN_HANDSHAKE_ERROR, None,
          Some (Errorf_w "failed to create SSH client connection: " err)))
      log
      (dialEvents f target
         ++ modules.EvNewClientConn rhost sshConfig :: map modules.EvSend sent)
| case_success : forall conn log sent sshClient,
    allValidated ->
    connected f dialGroup target conn ->
    NewClientConn conn rhost sshConfig ssh.new_HandshakeLog = (log, sent, inl sshClient) ->
    ScanCase
      (modules.Returned (zgrab2.SCAN_SUCCESS, Some log, None))
      log
      (dialEvents f target
         ++ modules.EvNewClientConn rhost sshConfig :: map modules.EvSend sent
         ++ modules.EvClose :: closeEvents target (ssh.Close sshClient)).

End ScanCase.

Module scanner.

(** What [Init] is given as [zgrab2.ScanFlags]: a pointer to [SSHFlags] that
    is not nil, or anything else (a nil pointer, the flags of another
    module), for which the type assertion of [Init] leaves [f] nil. *)
Inductive ScanFlags : Type :=
| ptr_SSHFlags (f : modules.SSHFlags)
| other_ScanFlags.

(** The embedded [zgrab2.BaseFlags] of the flags, with the fields the module
    reads. *)
Record BaseFlags : Type := {
  Name : string;
  Trigger : string;
  ConnectTimeout : Z;
  Verbose : bool }.

(** [f.BaseFlags]. *)
Definition BaseFlags_of (f : modules.SSHFlags) : BaseFlags :=
  {| Name := modules.Name f; Trigger := modules.Trigger f;
     ConnectTimeout := modules.ConnectTimeout f; Verbose := modules.Verbose f |}.

(** [SSHModule.Description()]. *)
Definition Description : string :=
  "Fetch an SSH server banner and collect key exchange information".

(** [SSHFlags.Validate(args)]. *)
Definition Validate (f : modules.SSHFlags) (args : list string) : option error := None.

(** [SSHFlags.Help()]. *)
Definition Help (f : modules.SSHFlags) : string := "".

(** [SSHScanner.Protocol()]. *)
Definition Protocol : string := "ssh".

Section Transport.

(** The transports of the framework and the constant [zgrab2.TransportTCP];
    their declarations are in package zgrab2. *)
Variable TransportProtocol : Type.
Variable TransportTCP : TransportProtocol.

(** [zgrab2.DialerGroupConfig], with the two fields that [Init] fills. *)
Record DialerGroupConfig : Type := {
  TransportAgnosticDialerProtocol : TransportProtocol;
  BaseFlagsPtr : BaseFlags }.

(** [SSHScanner] with both of its fields; each is a pointer, nil until
    [Init]. *)
Record SSHScanner : Type := {
  config : option modules.SSHFlags;
  dialerGroupConfig : option DialerGroupConfig }.

(** [SSHModule.NewScanner()]: [new(SSHScanner)]. *)
Definition NewScanner : SSHScanner :=
  {| config := None; dialerGroupConfig := None |}.

(** [SSHScanner.Init(flags)]: the scanner after the call and the error, or
    [None] for the run-time panic of [&f.BaseFlags] on the nil [f]. *)
Definition Init (s : SSHScanner) (flags : ScanFlags)
  : option (SSHScanner * option error) :=
  match flags with
  | ptr_SSHFlags f =>
      Some ({| config := Some f;
               dialerGroupConfig :=
                 Some {| TransportAgnosticDialerProtocol := TransportTCP;
                         BaseFlagsPtr := BaseFlags_of f |} |},
            None)
  | other_ScanFlags => None
  end.

(** [SSHScanner.InitPerSender(senderID)]. *)
Definition InitPerSender (s : SSHScanner) (senderID : Z) : option error := None.

(** [SSHScanner.GetName()]; [None] is the panic on a nil [config]. *)
Definition GetName (s : SSHScanner) : option string :=
  option_map modules.Name (config s).

(** [SSHScanner.GetTrigger()]; [None] is the panic on a nil [config]. *)
Definition GetTrigger (s : SSHScanner) : option string :=
  option_map modules.Trigger (config s).

(** [SSHScanner.GetDialerGroupConfig()]. *)
Definition GetDialerGroupConfig (s : SSHScanner) : option DialerGroupConfig :=
  dialerGroupConfig s.

(** The scanner as [Scan] reads it, once [config] is set. *)
Definition forScan (s : SSHScanner) : option modules.SSHScanner :=
  option_map (fun f => {| modules.config := f |}) (config s).

End Transport.

End scanner.

(** * Properties *)

(** ** Splitting and joining *)

Lemma Split_not_nil (s : string) (sep : ascii) : strings.Split s sep <> [].
Proof.
  destruct s as [|c s]; simpl; [discriminate|].
  destruct (Ascii.eqb c sep); [discriminate|].
  destruct (strings.Split s sep); discriminate.
Qed.

(** Empty tokens are kept, at the ends and between two separators. *)
Lemma Split_keeps_empty_tokens :
  strings.Split ",a,,b," "," = [""; "a"; ""; "b"; ""] /\
  strings.Split "" "," = [""] /\
  strings.Split "aes128-ctr" "," = ["aes128-ctr"].
Proof. repeat split. Qed.

(** Joining the tokens with the separator gives the string back: the tokens
    are the pieces of the input, in order. *)
Lemma Join_Split (s : string) (sep : ascii) :
  strings.Join (strings.Split s sep) sep = s.
Proof.
  unfold strings.Join.
  induction s as [|c s IH]; simpl; [reflexivity|].
  destruct (Ascii.eqb_spec c sep) as [->|Hne].
  - pose proof (Split_not_nil s sep) as Hnn.
    destruct (strings.Split s sep) as [|t ts] eqn:E; [congruence|].
    simpl. simpl in IH. rewrite IH. reflexivity.
  - pose proof (Split_not_nil s sep) as Hnn.
    destruct (strings.Split s sep) as [|t ts] eqn:E; [congruence|].
    simpl in *. destruct ts; simpl in *; rewrite <- IH; reflexivity.
Qed.

(** No token has the separator in it. *)
Lemma Split_free_of (s : string) (sep : ascii) :
  Forall (fun tok => free_of sep tok = true) (strings.Split s sep).
Proof.
  induction s as [|c s IH]; simpl.
  - constructor; [reflexivity|constructor].
  - destruct (Ascii.eqb c sep) eqn:E.
    + constructor; [reflexivity|exact IH].
    + destruct (strings.Split s sep) as [|t ts]; simpl.
      * constructor; [simpl; rewrite E; reflexivity|constructor].
      * inversion IH; subst. constructor; [simpl; rewrite E; simpl; assumption|assumption].
Qed.

Lemma Split_single (tok : string) (sep : ascii) :
  free_of sep tok = true -> strings.Split tok sep = [tok].
Proof.
  induction tok as [|c tok IH]; simpl; [reflexivity|].
  destruct (Ascii.eqb c sep); simpl; [discriminate|].
  intros H. rewrite (IH H). reflexivity.
Qed.

Lemma Split_app_sep (tok rest : string) (sep : ascii) :
  free_of sep tok = true ->
  strings.Split (tok ++ String.String sep rest) sep = tok :: strings.Split rest sep.
Proof.
  induction tok as [|c tok IH]; simpl.
  - intros _. rewrite Ascii.eqb_refl. reflexivity.
  - destruct (Ascii.eqb c sep); simpl; [discriminate|].
    intros H. rewrite (IH H). reflexivity.
Qed.

(** Splitting a joined list of tokens without separator gives the list. *)
Lemma Split_Join (toks : list string) (sep : ascii) :
  toks <> [] ->
  Forall (fun tok => free_of sep tok = true) toks ->
  strings.Split (strings.Join toks sep) sep = toks.
Proof.
  unfold strings.Join.
  induction toks as [|t ts IH]; [congruence|].
  intros _ HF. inversion HF as [|? ? Ht Hts]; subst.
  destruct ts as [|t' ts'].
  - simpl. apply Split_single. assumption.
  - change (String.concat (String.String sep "") (t :: t' :: ts'))
      with (t ++ String.String sep (String.concat (String.String sep "") (t' :: ts')))%string.
    rewrite Split_app_sep by assumption.
    rewrite IH; [reflexivity|discriminate|assumption].
Qed.

(** ** The validator *)

Lemma contains_In (list : list string) (e : string) :
  ssh.contains list e = true <-> In e list.
Proof.
  unfold ssh.contains. rewrite existsb_exists. split.
  - intros [x [Hin Heq]]. apply String.eqb_eq in Heq. subst. assumption.
  - intros Hin. exists e. split; [assumption|apply String.eqb_refl].
Qed.

Lemma validateLoop_valid (supported toks algs : list string) :
  Forall (fun tok => ssh.contains supported tok = true) toks ->
  ssh.validateLoop supported toks algs = (algs ++ toks, None).
Proof.
  revert algs. induction toks as [|t ts IH]; intros algs HF; simpl.
  - rewrite app_nil_r. reflexivity.
  - inversion HF as [|? ? Ht Hts]; subst. rewrite Ht. simpl.
    rewrite IH by assumption. rewrite <- app_assoc. reflexivity.
Qed.

Lemma validateLoop_invalid (supported pre post algs : list string) (alg : string) :
  Forall (fun tok => ssh.contains supported tok = true) pre ->
  ssh.contains supported alg = false ->
  ssh.validateLoop supported (pre ++ alg :: post) algs
  = (nil, Some (errors_New (ssh.notSupported alg))).
Proof.
  revert algs. induction pre as [|t ts IH]; intros algs HF Halg; simpl.
  - rewrite Halg. reflexivity.
  - inversion HF as [|? ? Ht Hts]; subst. rewrite Ht. simpl. apply IH; assumption.
Qed.

(** The first element of a list that fails a test, with what is before it. *)
Lemma first_failing {A : Type} (p : A -> bool) (l : list A) :
  Exists (fun x => p x = false) l ->
  exists pre x post, l = pre ++ x :: post /\
    Forall (fun y => p y = true) pre /\ p x = false.
Proof.
  induction l as [|a l IH]; intros HE; [inversion HE|].
  destruct (p a) eqn:Ea.
  - assert (HE' : Exists (fun x => p x = false) l).
    { inversion HE; subst; [congruence|assumption]. }
    destruct (IH HE') as (pre & x & post & Hl & Hpre & Hx).
    exists (a :: pre), x, post. subst. repeat split; [constructor|]; assumption.
  - exists [], a, l. repeat split; [constructor|assumption].
Qed.

(** The validator either accepts or rejects, and a rejection returns nil. *)
Lemma validateAlgorithms_cases (value : string) (supported : list string) :
  (ssh.validateAlgorithms value supported = (strings.Split value ",", None) /\
   Forall (fun tok => ssh.contains supported tok = true) (strings.Split value ","))
  \/
  (exists alg, ssh.validateAlgorithms value supported
               = (nil, Some (errors_New (ssh.notSupported alg))) /\
     Exists (fun tok => ssh.contains supported tok = false) (strings.Split value ",")).
Proof.
  unfold ssh.validateAlgorithms.
  destruct (Forall_Exists_dec (fun tok => ssh.contains supported tok = true)
              (fun tok => bool_dec (ssh.contains supported tok) true)
              (strings.Split value ",")) as [HF|HE].
  - left. split; [|assumption]. rewrite validateLoop_valid by assumption. reflexivity.
  - right.
    assert (HE' : Exists (fun tok => ssh.contains supported tok = false)
                    (strings.Split value ",")).
    { apply Exists_impl with (2 := HE). intros a Ha.
      destruct (ssh.contains supported a); congruence. }
    destruct (first_failing _ _ HE') as (pre & x & post & Hl & Hpre & Hx).
    exists x. split; [|assumption]. rewrite Hl. apply validateLoop_invalid; assumption.
Qed.

(** C3: when every comma-separated token of the input is in the supported
    set, [validateAlgorithms] succeeds (nil error) and returns exactly the
    token sequence of the input: the same tokens in the same order, with the
    duplicates, nothing dropped; the tokens are the pieces of the input, which
    joined with commas give the input back. *)
Theorem validateAlgorithms_returns_the_tokens (value : string) (supported : list string) :
  Forall (fun tok => ssh.contains supported tok = true) (strings.Split value ",") ->
  ssh.validateAlgorithms value supported = (strings.Split value ",", None) /\
  strings.Join (fst (ssh.validateAlgorithms value supported)) "," = value.
Proof.
  intros HF.
  assert (E : ssh.validateAlgorithms value supported = (strings.Split value ",", None)).
  { unfold ssh.validateAlgorithms. rewrite validateLoop_valid by assumption. reflexivity. }
  split; [exact E|]. rewrite E. simpl. apply Join_Split.
Qed.

(** C4: when some comma-separated token of the input is not in the supported
    set, [validateAlgorithms] returns an error whose message names the first
    such token, and returns nil as the list, whatever valid tokens came
    before it. *)
Theorem validateAlgorithms_rejects_first_unsupported (value : string) (supported : list string) :
  Exists (fun tok => ssh.contains supported tok = false) (strings.Split value ",") ->
  exists pre alg post err,
    strings.Split value "," = pre ++ alg :: post /\
    Forall (fun tok => ssh.contains supported tok = true) pre /\
    ssh.contains supported alg = false /\
    ssh.validateAlgorithms value supported = (nil, Some err) /\
    Error err = ("algorithm not supported: " ++ dquote ++ alg ++ dquote)%string.
Proof.
  intros HE.
  destruct (first_failing _ _ HE) as (pre & x & post & Hl & Hpre & Hx).
  exists pre, x, post, (errors_New (ssh.notSupported x)).
  repeat split; try assumption.
  unfold ssh.validateAlgorithms. rewrite Hl. apply validateLoop_invalid; assumption.
Qed.

Lemma validateAlgorithms_single (tok : string) (supported : list string) :
  free_of "," tok = true ->
  ssh.validateAlgorithms tok supported
  = if ssh.contains supported tok then ([tok], None)
    else (nil, Some (errors_New (ssh.notSupported tok))).
Proof.
  intros Hfree. unfold ssh.validateAlgorithms.
  rewrite (Split_single tok "," Hfree). simpl.
  destruct (ssh.contains supported tok); reflexivity.
Qed.

(** C5, amended: applied to the empty string, [validateAlgorithms] tests the
    one empty token that the split gives: it fails with the error naming the
    empty token when the empty string is not in the supported set, and
    returns the one-element list of the empty token when it is; it never
    succeeds with an empty list. Tokens are matched exactly as split on
    commas, without trimming: a supported identifier with padding around it
    is rejected, the error naming the padded token, whenever the padded
    token is not itself in the supported set. *)
Theorem validateAlgorithms_empty_input_and_padding (supported : list string) :
  ssh.validateAlgorithms "" supported <> (nil, None) /\
  (ssh.contains supported "" = false ->
   ssh.validateAlgorithms "" supported
   = (nil, Some (errors_New (ssh.notSupported "")))) /\
  (ssh.contains supported "" = true ->
   ssh.validateAlgorithms "" supported = ([""], None)) /\
  (forall l alg r : string,
     free_of "," (l ++ alg ++ r) = true ->
     ssh.contains supported alg = true ->
     ssh.contains supported (l ++ alg ++ r) = false ->
     ssh.validateAlgorithms (l ++ alg ++ r) supported
     = (nil, Some (errors_New (ssh.notSupported (l ++ alg ++ r))))).
Proof.
  assert (E : ssh.validateAlgorithms "" supported
              = if ssh.contains supported "" then ([""], None)
                else (nil, Some (errors_New (ssh.notSupported "")))).
  { apply validateAlgorithms_single. reflexivity. }
  repeat split.
  - rewrite E. destruct (ssh.contains supported ""); discriminate.
  - intros H. rewrite E, H. reflexivity.
  - intros H. rewrite E, H. reflexivity.
  - intros l alg r Hfree _ Hnot.
    rewrite validateAlgorithms_single by assumption. rewrite Hnot. reflexivity.
Qed.

(** C10: each of the four setters, on an input that the validator rejects,
    returns the validator's error and leaves the configuration as it was:
    the field it would set and every other field. *)
Theorem setters_leave_config_on_error
  (supportedKexAlgos supportedHostKeyAlgos supportedCiphers supportedMACs : list string)
  (c : ssh.ClientConfig) (value : string) :
  (forall err, snd (ssh.validateAlgorithms value supportedKexAlgos) = Some err ->
     ssh.SetKexAlgorithms supportedKexAlgos c value = (c, Some err)) /\
  (forall err, snd (ssh.validateAlgorithms value supportedHostKeyAlgos) = Some err ->
     ssh.SetHostKeyAlgorithms supportedHostKeyAlgos c value = (c, Some err)) /\
  (forall err, snd (ssh.validateAlgorithms value supportedCiphers) = Some err ->
     ssh.SetCiphers supportedCiphers c value = (c, Some err)) /\
  (forall err, snd (ssh.validateAlgorithms value supportedMACs) = Some err ->
     ssh.SetMACs supportedMACs c value = (c, Some err)).
Proof.
  unfold ssh.SetKexAlgorithms, ssh.SetHostKeyAlgorithms, ssh.SetCiphers, ssh.SetMACs.
  repeat split; intros err H;
    match goal with
    | |- context [ssh.validateAlgorithms ?v ?s] =>
        destruct (ssh.validateAlgorithms v s) as [algs e]
    end; simpl in H; subst e; reflexivity.
Qed.

(** On an accepted input a setter assigns the validated list to its field. *)
Lemma setters_on_success
  (supportedKexAlgos supportedHostKeyAlgos supportedCiphers supportedMACs : list string)
  (c : ssh.ClientConfig) (value : string) :
  (validated supportedKexAlgos value ->
     ssh.SetKexAlgorithms supportedKexAlgos c value
     = (ssh.set_KeyExchanges (fst (ssh.validateAlgorithms value supportedKexAlgos)) c, None)) /\
  (validated supportedHostKeyAlgos value ->
     ssh.SetHostKeyAlgorithms supportedHostKeyAlgos c value
     = (ssh.set_HostKeyAlgorithms
          (fst (ssh.validateAlgorithms value supportedHostKeyAlgos)) c, None)) /\
  (validated supportedCiphers value ->
     ssh.SetCiphers supportedCiphers c value
     = (ssh.set_Ciphers (fst (ssh.validateAlgorithms value supportedCiphers)) c, None)) /\
  (validated supportedMACs value ->
     ssh.SetMACs supportedMACs c value
     = (ssh.set_MACs (fst (ssh.validateAlgorithms value supportedMACs)) c, None)).
Proof.
  unfold validated, ssh.SetKexAlgorithms, ssh.SetHostKeyAlgorithms, ssh.SetCiphers, ssh.SetMACs.
  repeat split; intros H;
    match goal with
    | |- context [ssh.validateAlgorithms ?v ?s] =>
        destruct (ssh.validateAlgorithms v s) as [algs e]
    end; simpl in H; subst e; reflexivity.
Qed.

(** ** Byte strings *)

Lemma append_nil_r (s : string) : (s ++ "")%string = s.
Proof. induction s as [|c s IH]; simpl; [reflexivity|rewrite IH; reflexivity]. Qed.

Lemma append_assoc (a b c : string) : ((a ++ b) ++ c)%string = (a ++ (b ++ c))%string.
Proof. induction a as [|x a IH]; simpl; [reflexivity|rewrite IH; reflexivity]. Qed.

Lemma length_append (a b : string) :
  String.length (a ++ b) = String.length a + String.length b.
Proof. induction a as [|x a IH]; simpl; [reflexivity|rewrite IH; reflexivity]. Qed.

Lemma reverse_append (a b : string) :
  strings.reverse (a ++ b) = (strings.reverse b ++ strings.reverse a)%string.
Proof.
  induction a as [|x a IH]; simpl.
  - rewrite append_nil_r. reflexivity.
  - rewrite IH, append_assoc. reflexivity.
Qed.

Lemma reverse_involutive (s : string) : strings.reverse (strings.reverse s) = s.
Proof.
  induction s as [|c s IH]; simpl; [reflexivity|].
  rewrite reverse_append, IH. reflexivity.
Qed.

Lemma length_reverse (s : string) : String.length (strings.reverse s) = String.length s.
Proof.
  induction s as [|c s IH]; simpl; [reflexivity|].
  rewrite length_append, IH. simpl. lia.
Qed.

Lemma prefix_split (p s : string) :
  String.prefix p s = true -> s = (p ++ strings.drop (String.length p) s)%string.
Proof.
  revert s. induction p as [|c p IH]; intros s H; simpl; [reflexivity|].
  destruct s as [|d s]; simpl in H; [discriminate|].
  destruct (Ascii.ascii_dec c d) as [->|]; [|discriminate].
  rewrite <- (IH s H). reflexivity.
Qed.

Lemma prefix_append (p s t : string) :
  String.prefix p s = true -> String.prefix p (s ++ t) = true.
Proof.
  revert s. induction p as [|c p IH]; intros s H; simpl.
  - destruct (s ++ t)%string; reflexivity.
  - destruct s as [|d s]; simpl in H; [discriminate|]. simpl.
    destruct (Ascii.ascii_dec c d); [apply IH; assumption|discriminate].
Qed.

Lemma length_drop (n : nat) (s : string) :
  String.length (strings.drop n s) = String.length s - n.
Proof.
  revert s. induction n as [|n IH]; intros s; simpl; [lia|].
  destruct s as [|c s]; simpl; [reflexivity|apply IH].
Qed.

Lemma leading_Some (pats : list string) (s p : string) :
  strings.leading pats s = Some p -> In p pats /\ String.prefix p s = true.
Proof. unfold strings.leading. intros H. apply find_some in H. exact H. Qed.

Lemma leading_None (pats : list string) (s p : string) :
  strings.leading pats s = None -> In p pats -> String.prefix p s = false.
Proof. unfold strings.leading. intros H Hin. exact (find_none _ _ H p Hin). Qed.

Lemma RunOf_append (pats : list string) (a b : string) :
  strings.RunOf pats a -> strings.RunOf pats b -> strings.RunOf pats (a ++ b).
Proof.
  intros Ha Hb. induction Ha as [|p s Hin Hs IH]; simpl; [assumption|].
  rewrite append_assoc. constructor; assumption.
Qed.

Lemma RunOf_reverse (pats : list string) (s : string) :
  strings.RunOf (map strings.reverse pats) s -> strings.RunOf pats (strings.reverse s).
Proof.
  intros H. induction H as [|p s Hin Hs IH]; simpl; [constructor|].
  rewrite reverse_append. apply RunOf_append; [assumption|].
  apply in_map_iff in Hin. destruct Hin as [q [Hq Hin]]. subst p.
  rewrite reverse_involutive.
  rewrite <- (append_nil_r q). constructor; [assumption|constructor].
Qed.

(** What [dropLeading] removes is a run of the patterns. *)
Lemma dropLeading_run (pats : list string) (fuel : nat) (s : string) :
  exists pre, strings.RunOf pats pre /\
              s = (pre ++ strings.dropLeading pats fuel s)%string.
Proof.
  revert s. induction fuel as [|fuel IH]; intros s; simpl.
  - exists ""%string. split; [constructor|reflexivity].
  - destruct (strings.leading pats s) as [p|] eqn:E.
    + destruct (leading_Some _ _ _ E) as [Hin Hpre].
      destruct (IH (strings.drop (String.length p) s)) as [pre [Hrun Heq]].
      exists (p ++ pre)%string. split; [constructor; assumption|].
      rewrite append_assoc, <- Heq. apply prefix_split. assumption.
    + exists ""%string. split; [constructor|reflexivity].
Qed.

(** With fuel for every byte, [dropLeading] stops where no pattern leads. *)
Lemma dropLeading_done (pats : list string) (fuel : nat) (s : string) :
  Forall (fun p => p <> ""%string) pats ->
  String.length s <= fuel ->
  strings.leading pats (strings.dropLeading pats fuel s) = None.
Proof.
  intros Hne. revert s. induction fuel as [|fuel IH]; intros s Hlen; simpl.
  - destruct s; [|simpl in Hlen; lia].
    destruct (strings.leading pats "") as [p|] eqn:E; [|reflexivity].
    destruct (leading_Some _ _ _ E) as [Hin Hpre].
    rewrite Forall_forall in Hne. specialize (Hne p Hin).
    destruct p; [congruence|discriminate].
  - destruct (strings.leading pats s) as [p|] eqn:E; [|assumption].
    destruct (leading_Some _ _ _ E) as [Hin Hpre].
    apply IH. rewrite length_drop.
    rewrite Forall_forall in Hne. specialize (Hne p Hin).
    destruct p; [congruence|]. simpl. lia.
Qed.

Lemma spaceEncodings_not_empty :
  Forall (fun p => p <> ""%string) strings.spaceEncodings.
Proof. repeat constructor; discriminate. Qed.

Lemma reversed_spaceEncodings_not_empty :
  Forall (fun p => p <> ""%string) (map strings.reverse strings.spaceEncodings).
Proof. repeat constructor; discriminate. Qed.

(** [TrimSpace] removes a run of white space at each end and nothing else,
    and what it returns neither starts nor ends with white space. *)
Lemma TrimSpace_spec (s : string) :
  (exists pre post, strings.AllSpace pre /\ strings.AllSpace post /\
                    s = (pre ++ strings.TrimSpace s ++ post)%string) /\
  strings.leadingSpace (strings.TrimSpace s) = None /\
  strings.trailingSpace (strings.TrimSpace s) = None.
Proof.
  unfold strings.TrimSpace, strings.leadingSpace, strings.trailingSpace.
  set (t := strings.TrimLeftSpace s).
  assert (Ht : strings.leading strings.spaceEncodings t = None).
  { apply dropLeading_done; [apply spaceEncodings_not_empty|lia]. }
  destruct (dropLeading_run strings.spaceEncodings (String.length s) s)
    as [pre [Hpre Hs]].
  fold (strings.TrimLeftSpace s) in Hs. fold t in Hs.
  destruct (dropLeading_run (map strings.reverse strings.spaceEncodings)
              (String.length t) (strings.reverse t)) as [rpost [Hrpost Hrt]].
  set (r := strings.TrimRightSpace t).
  assert (Hr : strings.dropLeading (map strings.reverse strings.spaceEncodings)
                 (String.length t) (strings.reverse t) = strings.reverse r).
  { unfold r, strings.TrimRightSpace. rewrite reverse_involutive. reflexivity. }
  rewrite Hr in Hrt.
  assert (Htr : t = (r ++ strings.reverse rpost)%string).
  { rewrite <- (reverse_involutive t), Hrt, reverse_append, reverse_involutive.
    reflexivity. }
  repeat split.
  - exists pre, (strings.reverse rpost). repeat split.
    + exact Hpre.
    + apply RunOf_reverse. exact Hrpost.
    + rewrite <- Htr. exact Hs.
  - destruct (strings.leading strings.spaceEncodings r) as [p|] eqn:E; [|reflexivity].
    destruct (leading_Some _ _ _ E) as [Hin Hp].
    pose proof (leading_None _ _ _ Ht Hin) as Hf.
    rewrite Htr in Hf. rewrite (prefix_append _ _ _ Hp) in Hf. discriminate.
  - rewrite <- Hr. apply dropLeading_done.
    + apply reversed_spaceEncodings_not_empty.
    + rewrite length_reverse. lia.
Qed.

(** ** The handshake driver *)

(** What holds of the driver's state before a run and is kept by every phase
    holds after the run, however it ends. *)
Lemma runPhases_invariant (P : ssh.DriverState -> Prop) (ps : list ssh.Phase)
  (peer : net.Peer) (config : ssh.ClientConfig) (st : ssh.DriverState) :
  (forall p st', In p ps -> P st' -> P (fst (p peer config st'))) ->
  P st -> P (fst (ssh.runPhases ps peer config st)).
Proof.
  revert st. induction ps as [|p ps IH]; intros st Hkeep Hst; simpl; [assumption|].
  pose proof (Hkeep p st (or_introl eq_refl) Hst) as Hp.
  destruct (p peer config st) as [st' [e|]]; simpl in *; [assumption|].
  apply IH; [|assumption]. intros q st'' Hq. apply Hkeep. right. assumption.
Qed.

Lemma phases_after_version (config : ssh.ClientConfig) :
  exists later, ssh.phases config = ssh.VersionExchange :: later /\
    forall p, In p later ->
      p = ssh.KeyExchange \/ p = ssh.ExtensionNegotiation \/ p = ssh.UserAuthProbe.
Proof.
  unfold ssh.phases. eexists. split; [reflexivity|].
  intros p. destruct (ssh.HelloOnly config), (ssh.CollectExtensions config),
    (ssh.CollectUserAuth config); simpl; intuition.
Qed.

(** The phases after the version exchange leave the banner as it is. *)
Lemma later_phases_keep_Banner (p : ssh.Phase) (peer : net.Peer)
  (config : ssh.ClientConfig) (st : ssh.DriverState) :
  p = ssh.KeyExchange \/ p = ssh.ExtensionNegotiation \/ p = ssh.UserAuthProbe ->
  ssh.Banner (fst (fst (p peer config st))) = ssh.Banner (fst st).
Proof.
  destruct st as [log sent].
  intros [->|[->| ->]].
  - unfold ssh.KeyExchange.
    destruct (net.peerKexInit peer) as [[[[k h] c] m]|]; [|reflexivity].
    destruct (ssh.findAgreed (ssh.KeyExchanges config) k); [|reflexivity].
    destruct (ssh.findAgreed (ssh.HostKeyAlgorithms config) h); [|reflexivity].
    destruct (ssh.findAgreed (ssh.Ciphers config) c); [|reflexivity].
    destruct (ssh.findAgreed (ssh.MACs config) m); [|reflexivity].
    destruct (net.peerKexReply peer); [|reflexivity].
    destruct (ssh.HostKeyCallback config) as [cb|]; [|reflexivity].
    destruct (cb _); reflexivity.
  - unfold ssh.ExtensionNegotiation. destruct (net.peerExtInfo peer); reflexivity.
  - unfold ssh.UserAuthProbe. destruct (net.peerUserAuth peer); reflexivity.
Qed.

(** Once the server's identification line is read, the banner that the
    callback of [Scan] stores is in the log, however the handshake goes on. *)
Lemma NewClientConn_banner (c : net.Conn) (addr : string) (config : ssh.ClientConfig)
  (log : ssh.HandshakeLog) (banner : string) :
  ssh.BannerCallback config = Some modules.bannerCallback ->
  net.peerVersion (net.remote c) = inl banner ->
  ssh.Banner (fst (fst (ssh.NewClientConn c addr config log)))
  = strings.TrimSpace banner.
Proof.
  intros Hcb Hver. unfold ssh.NewClientConn.
  destruct (phases_after_version config) as [later [-> Hlater]].
  assert (H : ssh.Banner (fst (fst (ssh.runPhases (ssh.VersionExchange :: later)
                 (net.remote c) config (log, [])))) = strings.TrimSpace banner).
  { simpl. rewrite Hver, Hcb. simpl.
    apply (runPhases_invariant
             (fun st => ssh.Banner (fst st) = strings.TrimSpace banner));
      [|reflexivity].
    intros p st' Hp Hst'. rewrite later_phases_keep_Banner; auto. }
  destruct (ssh.runPhases (ssh.VersionExchange :: later) (net.remote c) config (log, []))
    as [[log' sent] [e|]]; exact H.
Qed.

(** A server that closes right after its banner: the driver fails in the key
    exchange, and the log has the banner and nothing after it. *)
Lemma NewClientConn_closed_after_banner (c : net.Conn) (addr : string)
  (config : ssh.ClientConfig) (log : ssh.HandshakeLog) (banner : string) (cause : error) :
  ssh.BannerCallback config = Some modules.bannerCallback ->
  ssh.HelloOnly config = false ->
  net.peerVersion (net.remote c) = inl banner ->
  net.peerKexInit (net.remote c) = inr cause ->
  ssh.NewClientConn c addr config log
  = (ssh.set_Banner (strings.TrimSpace banner) log,
     [ssh.MsgVersion (ssh.ClientVersion config);
      ssh.MsgKexInit (ssh.KeyExchanges config) (ssh.HostKeyAlgorithms config)
        (ssh.Ciphers config) (ssh.MACs config)],
     inr (ssh.phaseError "key exchange" cause)).
Proof.
  intros Hcb Hhello Hver Hkex.
  unfold ssh.NewClientConn, ssh.phases. rewrite Hhello. simpl.
  rewrite Hver, Hcb. simpl. rewrite Hkex. reflexivity.
Qed.

(** Every phase sends only messages without credentials. *)
Lemma phases_send_no_credential (p : ssh.Phase) (peer : net.Peer)
  (config : ssh.ClientConfig) (st : ssh.DriverState) :
  In p (ssh.phases config) ->
  Forall (fun m => carriesCredential m = false) (snd st) ->
  Forall (fun m => carriesCredential m = false) (snd (fst (p peer config st))).
Proof.
  intros Hp Hst. destruct st as [log sent]. simpl in Hst.
  assert (Hadd : forall m, carriesCredential m = false ->
            Forall (fun m => carriesCredential m = false) (sent ++ [m])).
  { intros m Hm. apply Forall_app. split; [assumption|constructor; [assumption|constructor]]. }
  destruct (phases_after_version config) as [later [E Hlater]].
  rewrite E in Hp. destruct Hp as [<-|Hp]; [|destruct (Hlater p Hp) as [->|[->| ->]]].
  - unfold ssh.VersionExchange.
    destruct (net.peerVersion peer); [|apply Hadd; reflexivity].
    destruct (ssh.BannerCallback config) as [cb|]; [|apply Hadd; reflexivity].
    destruct (cb _ _) as [log' [e|]]; apply Hadd; reflexivity.
  - unfold ssh.KeyExchange.
    destruct (net.peerKexInit peer) as [[[[k h] c] m]|]; [|apply Hadd; reflexivity].
    destruct (ssh.findAgreed (ssh.KeyExchanges config) k) as [kex|]; [|apply Hadd; reflexivity].
    destruct (ssh.findAgreed (ssh.HostKeyAlgorithms config) h); [|apply Hadd; reflexivity].
    destruct (ssh.findAgreed (ssh.Ciphers config) c); [|apply Hadd; reflexivity].
    destruct (ssh.findAgreed (ssh.MACs config) m); [|apply Hadd; reflexivity].
    assert (Hgex : Forall (fun m => carriesCredential m = false)
              (if ssh.isGroupExchange kex
               then (sent ++ [ssh.MsgKexInit (ssh.KeyExchanges config)
                                (ssh.HostKeyAlgorithms config) (ssh.Ciphers config)
                                (ssh.MACs config)])
                    ++ [ssh.MsgGexRequest (ssh.GexMinBits config)
                          (ssh.GexPreferredBits config) (ssh.GexMaxBits config)]
               else sent ++ [ssh.MsgKexInit (ssh.KeyExchanges config)
                               (ssh.HostKeyAlgorithms config) (ssh.Ciphers config)
                               (ssh.MACs config)])).
    { destruct (ssh.isGroupExchange kex); [|apply Hadd; reflexivity].
      apply Forall_app. split; [apply Hadd; reflexivity|].
      constructor; [reflexivity|constructor]. }
    destruct (net.peerKexReply peer); [|exact Hgex].
    destruct (ssh.HostKeyCallback config) as [cb|]; [|exact Hgex].
    destruct (cb _); exact Hgex.
  - unfold ssh.ExtensionNegotiation. destruct (net.peerExtInfo peer); assumption.
  - unfold ssh.UserAuthProbe.
    destruct (net.peerUserAuth peer); apply Hadd; reflexivity.
Qed.

(** The driver transmits no credential, whatever the configuration and the
    server. *)
Lemma NewClientConn_sends_no_credential (c : net.Conn) (addr : string)
  (config : ssh.ClientConfig) (log : ssh.HandshakeLog) :
  Forall (fun m => carriesCredential m = false)
    (snd (fst (ssh.NewClientConn c addr config log))).
Proof.
  unfold ssh.NewClientConn.
  pose proof (runPhases_invariant
                (fun st => Forall (fun m => carriesCredential m = false) (snd st))
                (ssh.phases config) (net.remote c) config (log, [])) as H.
  destruct (ssh.runPhases (ssh.phases config) (net.remote c) config (log, []))
    as [[log' sent] [e|]]; simpl in *; apply H;
    try (intros p st' Hp Hst'; apply phases_send_no_credential; assumption);
    constructor.
Qed.

(** ** The runs of [Scan] *)

Section ScanRuns.

Variables supportedKexAlgos supportedHostKeyAlgos supportedCiphers supportedMACs
  : list string.
Variable NewClientConn : ssh.Driver.
Variable s : modules.SSHScanner.
Variable dialGroup : zgrab2.DialerGroup.
Variable target : zgrab2.ScanTarget.

Local Abbreviation f := (modules.config s).
Local Abbreviation Scan :=
  (modules.Scan supportedKexAlgos supportedHostKeyAlgos supportedCiphers
     supportedMACs NewClientConn s dialGroup target).
Local Abbreviation sshConfig :=
  (probeConfig supportedKexAlgos supportedHostKeyAlgos supportedCiphers
     supportedMACs f).
Local Abbreviation rhost := (rhostOf target).

(** All four preference strings of the flags are accepted. *)
Local Abbreviation allValidated :=
  (validated supportedHostKeyAlgos (modules.HostKeyAlgorithms f) /\
   validated supportedKexAlgos (modules.KexAlgorithms f) /\
   validated supportedCiphers (modules.Ciphers f) /\
   validated supportedMACs (modules.MACs f)).

Ltac scan_unfold :=
  unfold probeConfig, rhostOf, modules.Scan,
    ssh.SetHostKeyAlgorithms, ssh.SetKexAlgorithms, ssh.SetCiphers, ssh.SetMACs;
  destruct (ssh.validateAlgorithms (modules.HostKeyAlgorithms f) supportedHostKeyAlgos)
    as [a1 e1];
  destruct (ssh.validateAlgorithms (modules.KexAlgorithms f) supportedKexAlgos)
    as [a2 e2];
  destruct (ssh.validateAlgorithms (modules.Ciphers f) supportedCiphers)
    as [a3 e3];
  destruct (ssh.validateAlgorithms (modules.MACs f) supportedMACs)
    as [a4 e4];
  unfold modules.bind, modules.fatalIf, modules.log_Fatal, modules.ret,
    modules.new_data, modules.emit;
  cbn [fst snd modules.heap modules.trace].

Ltac norm_config :=
  cbv [ssh.new_ClientConfig
       ssh.set_Timeout ssh.set_ConnLog ssh.set_ClientVersion ssh.set_HelloOnly
       ssh.set_KeyExchanges ssh.set_HostKeyAlgorithms ssh.set_Ciphers ssh.set_MACs
       ssh.set_Verbose ssh.set_CollectExtensions ssh.set_CollectUserAuth
       ssh.set_DontAuthenticate ssh.set_GexMinBits ssh.set_GexMaxBits
       ssh.set_GexPreferredBits ssh.set_BannerCallback ssh.set_HostKeyCallback
       ssh.Timeout ssh.ConnLog ssh.ClientVersion ssh.HelloOnly
       ssh.KeyExchanges ssh.HostKeyAlgorithms ssh.Ciphers ssh.MACs
       ssh.Verbose ssh.CollectExtensions ssh.CollectUserAuth
       ssh.DontAuthenticate ssh.GexMinBits ssh.GexMaxBits
       ssh.GexPreferredBits ssh.BannerCallback ssh.HostKeyCallback].

Ltac scan_validated H :=
  let H1 := fresh in let H2 := fresh in let H3 := fresh in let H4 := fresh in
  destruct H as (H1 & H2 & H3 & H4);
  unfold validated in H1, H2, H3, H4;
  scan_unfold;
  cbn [fst snd] in H1, H2, H3, H4; subst;
  cbn [fst snd modules.heap modules.trace]; norm_config.

(** A preference string is rejected: [log.Fatal] ends the process with the
    validator's error, and nothing else has happened. *)
Lemma Scan_fatal (w : modules.World) :
  ~ allValidated ->
  exists err,
    In (Some err)
       [snd (ssh.validateAlgorithms (modules.HostKeyAlgorithms f) supportedHostKeyAlgos);
        snd (ssh.validateAlgorithms (modules.KexAlgorithms f) supportedKexAlgos);
        snd (ssh.validateAlgorithms (modules.Ciphers f) supportedCiphers);
        snd (ssh.validateAlgorithms (modules.MACs f) supportedMACs)] /\
    Scan w = (modules.Exited 1,
              {| modules.heap := ssh.new_HandshakeLog;
                 modules.trace := modules.trace w ++ [modules.EvLogFatal (Error err)] |}).
Proof.
  intros Hnot. unfold validated in Hnot. revert Hnot. scan_unfold. intros Hnot.
  destruct e1 as [e|]; [exists e; split; [simpl; auto|reflexivity]|].
  destruct e2 as [e|]; [exists e; split; [simpl; auto|reflexivity]|].
  destruct e3 as [e|]; [exists e; split; [simpl; auto|reflexivity]|].
  destruct e4 as [e|]; [exists e; split; [simpl; auto 6|reflexivity]|].
  exfalso. apply Hnot. repeat split.
Qed.

(** The dialer fails: its error is wrapped and classified, no log is
    returned, nothing but the dial has happened. *)
Lemma Scan_dial_error (w : modules.World) (err : error) :
  allValidated ->
  zgrab2.Dial dialGroup target = inr err ->
  Scan w
  = (modules.Returned
       (zgrab2.TryGetScanStatus
          (Some (Errorf_w ("failed to dial target " ++ zgrab2.String target ++ ": ") err)),
        None,
        Some (Errorf_w ("failed to dial target " ++ zgrab2.String target ++ ": ") err)),
     {| modules.heap := ssh.new_HandshakeLog;
        modules.trace := modules.trace w ++ [modules.EvDial target] |}).
Proof.
  intros H Hdial. scan_validated H. rewrite Hdial. reflexivity.
Qed.

(** Setting the deadline fails: the error is classified as it is and
    returned wrapped, no log is returned, the driver has not run. *)
Lemma Scan_deadline_error (w : modules.World) (conn : net.Conn) (err : error) :
  allValidated ->
  zgrab2.Dial dialGroup target = inl conn ->
  modules.ConnectTimeout f <> 0%Z ->
  net.SetDeadline conn (modules.ConnectTimeout f) = Some err ->
  Scan w
  = (modules.Returned
       (zgrab2.TryGetScanStatus (Some err), None,
        Some (Errorf_w "failed to set connection deadline: " err)),
     {| modules.heap := ssh.new_HandshakeLog;
        modules.trace := modules.trace w ++ dialEvents f target |}).
Proof.
  intros H Hdial Hne Hset. scan_validated H. rewrite Hdial.
  unfold dialEvents. destruct (Z.eqb_spec (modules.ConnectTimeout f) 0) as [|_]; [contradiction|].
  cbn. rewrite Hset. rewrite <- app_assoc. reflexivity.
Qed.

(** The driver fails: the status is handshake-error, nil is returned for the
    log, the error is returned wrapped; the log the driver worked on stays
    in the store. *)
Lemma Scan_handshake_error (w : modules.World) (conn : net.Conn)
  (log : ssh.HandshakeLog) (sent : list ssh.Msg) (err : error) :
  allValidated ->
  connected f dialGroup target conn ->
  NewClientConn conn rhost sshConfig ssh.new_HandshakeLog = (log, sent, inr err) ->
  Scan w
  = (modules.Returned
       (zgrab2.SCAN_HANDSHAKE_ERROR, None,
        Some (Errorf_w "failed to create SSH client connection: " err)),
     {| modules.heap := log;
        modules.trace :=
          modules.trace w ++ dialEvents f target
            ++ modules.EvNewClientConn rhost sshConfig :: map modules.EvSend sent |}).
Proof.
  intros H [Hdial Hset]. revert Hset. unfold dialEvents. scan_validated H. intros Hset Hdrv.
  rewrite Hdial.
  destruct (Z.eqb_spec (modules.ConnectTimeout f) 0) as [E|E]; cbn.
  - unfold modules.call_NewClientConn. cbn. rewrite Hdrv. cbn.
    rewrite <- app_assoc. reflexivity.
  - rewrite (Hset E). unfold modules.call_NewClientConn. cbn. rewrite Hdrv. cbn.
    rewrite <- !app_assoc. reflexivity.
Qed.

(** The driver succeeds: the status is that of the nil error, the log is
    returned, the error is nil, whatever [Close] answers; the deferred
    closure closes the client and logs what [closeEvents] says. *)
Lemma Scan_success (w : modules.World) (conn : net.Conn)
  (log : ssh.HandshakeLog) (sent : list ssh.Msg) (sshClient : ssh.Client) :
  allValidated ->
  connected f dialGroup target conn ->
  NewClientConn conn rhost sshConfig ssh.new_HandshakeLog = (log, sent, inl sshClient) ->
  Scan w
  = (modules.Returned (zgrab2.SCAN_SUCCESS, Some log, None),
     {| modules.heap := log;
        modules.trace :=
          modules.trace w ++ dialEvents f target
            ++ modules.EvNewClientConn rhost sshConfig :: map modules.EvSend sent
            ++ modules.EvClose :: closeEvents target (ssh.Close sshClient) |}).
Proof.
  intros H [Hdial Hset]. revert Hset. unfold dialEvents, closeEvents.
  scan_validated H. intros Hset Hdrv.
  rewrite Hdial.
  destruct (Z.eqb_spec (modules.ConnectTimeout f) 0) as [E|E]; cbn.
  - unfold modules.call_NewClientConn. cbn. rewrite Hdrv. cbn.
    unfold modules.deferred_Close, modules.bind, modules.emit, modules.log_Errorf,
      modules.emit, modules.ret, modules.load_data. cbn.
    destruct (ssh.Close sshClient) as [e|]; cbn.
    + destruct (strings.Contains (Error e) "use of closed network connection"); cbn;
        rewrite <- !app_assoc; cbn; rewrite <- ?app_assoc; reflexivity.
    + rewrite <- !app_assoc. reflexivity.
  - rewrite (Hset E). unfold modules.call_NewClientConn. cbn. rewrite Hdrv. cbn.
    unfold modules.deferred_Close, modules.bind, modules.emit, modules.log_Errorf,
      modules.emit, modules.ret, modules.load_data. cbn.
    destruct (ssh.Close sshClient) as [e|]; cbn.
    + destruct (strings.Contains (Error e) "use of closed network connection"); cbn;
        rewrite <- !app_assoc; cbn; rewrite <- ?app_assoc; reflexivity.
    + rewrite <- !app_assoc. reflexivity.
Qed.

Lemma allValidated_dec : allValidated \/ ~ allValidated.
Proof.
  unfold validated.
  destruct (snd (ssh.validateAlgorithms (modules.HostKeyAlgorithms f) supportedHostKeyAlgos));
    [right; intros (H & _); discriminate|].
  destruct (snd (ssh.validateAlgorithms (modules.KexAlgorithms f) supportedKexAlgos));
    [right; intros (_ & H & _); discriminate|].
  destruct (snd (ssh.validateAlgorithms (modules.Ciphers f) supportedCiphers));
    [right; intros (_ & _ & H & _); discriminate|].
  destruct (snd (ssh.validateAlgorithms (modules.MACs f) supportedMACs));
    [right; intros (_ & _ & _ & H); discriminate|].
  left. repeat split.
Qed.

(** The events of a probe that reached the driver: the driver was called
    once, and what was sent is what the driver sent. *)
Lemma probe_events (addr : string) (config : ssh.ClientConfig) (sent : list ssh.Msg)
  (closing : list modules.Event) :
  (closing = [] \/ exists closeErr, closing = modules.EvClose :: closeEvents target closeErr) ->
  let evs := dialEvents f target
               ++ modules.EvNewClientConn addr config :: map modules.EvSend sent
               ++ closing in
  (forall addr' config', In (modules.EvNewClientConn addr' config') evs ->
     addr' = addr /\ config' = config) /\
  (forall m, In (modules.EvSend m) evs -> In m sent).
Proof.
  intros Hclosing evs. unfold evs, dialEvents.
  assert (Hc : forall e, In e closing ->
             e = modules.EvClose \/ exists msg, e = modules.EvLogErrorf msg).
  { intros e He. destruct Hclosing as [->|[ce ->]]; [destruct He|].
    destruct He as [<-|He]; [left; reflexivity|right].
    unfold closeEvents in He. destruct ce as [e'|]; [|destruct He].
    destruct (strings.Contains _ _); [destruct He|].
    destruct He as [<-|[]]. eexists. reflexivity. }
  split.
  - intros addr' config' Hin. apply in_app_or in Hin. destruct Hin as [Hin|Hin].
    + destruct Hin as [Hin|Hin]; [discriminate|].
      destruct (modules.ConnectTimeout f =? 0)%Z; [destruct Hin|].
      destruct Hin as [Hin|[]]. discriminate.
    + destruct Hin as [Hin|Hin]; [inversion Hin; split; reflexivity|].
      apply in_app_or in Hin. destruct Hin as [Hin|Hin].
      * apply in_map_iff in Hin. destruct Hin as [m [Hm _]]. discriminate.
      * destruct (Hc _ Hin) as [H|[msg H]]; discriminate.
  - intros m Hin. apply in_app_or in Hin. destruct Hin as [Hin|Hin].
    + destruct Hin as [Hin|Hin]; [discriminate|].
      destruct (modules.ConnectTimeout f =? 0)%Z; [destruct Hin|].
      destruct Hin as [Hin|[]]. discriminate.
    + destruct Hin as [Hin|Hin]; [discriminate|].
      apply in_app_or in Hin. destruct Hin as [Hin|Hin].
      * apply in_map_iff in Hin. destruct Hin as [m' [Hm Hin]].
        inversion Hm. subst. assumption.
      * destruct (Hc _ Hin) as [H|[msg H]]; discriminate.
Qed.

(** Every run of [Scan]: the driver is called at most once, when the four
    lists are validated, with the address of the target and the assembled
    configuration; what is sent is sent by the driver in that call. *)
Lemma Scan_events (w : modules.World) :
  exists evs,
    modules.trace (snd (Scan w)) = modules.trace w ++ evs /\
    (forall addr config, In (modules.EvNewClientConn addr config) evs ->
       addr = rhost /\ config = sshConfig) /\
    (forall m, In (modules.EvSend m) evs ->
       exists conn, In m (snd (fst (NewClientConn conn rhost sshConfig
                                      ssh.new_HandshakeLog)))).
Proof.
  destruct allValidated_dec as [Hv|Hv].
  2:{ destruct (Scan_fatal w Hv) as [err [_ ->]]. eexists. split; [reflexivity|].
      split; intros; simpl in *; intuition discriminate. }
  destruct (zgrab2.Dial dialGroup target) as [conn|err] eqn:Hdial.
  2:{ rewrite (Scan_dial_error w err Hv Hdial). eexists. split; [reflexivity|].
      split; intros; simpl in *; intuition discriminate. }
  assert (Hconn : (exists err, modules.ConnectTimeout f <> 0%Z /\
                     net.SetDeadline conn (modules.ConnectTimeout f) = Some err)
                  \/ connected f dialGroup target conn).
  { unfold connected.
    destruct (net.SetDeadline conn (modules.ConnectTimeout f)) as [err|] eqn:Hset.
    - destruct (Z.eq_dec (modules.ConnectTimeout f) 0) as [E|E].
      + right. split; [assumption|]. intros; contradiction.
      + left. exists err. split; [assumption|reflexivity].
    - right. split; [assumption|]. intros; reflexivity. }
  destruct Hconn as [[err [Hne Hset]]|Hconn].
  { rewrite (Scan_deadline_error w conn err Hv Hdial Hne Hset).
    eexists. split; [reflexivity|]. unfold dialEvents.
    destruct (modules.ConnectTimeout f =? 0)%Z;
      split; intros; simpl in *; intuition discriminate. }
  destruct (NewClientConn conn rhost sshConfig ssh.new_HandshakeLog)
    as [[log sent] [sshClient|err]] eqn:Hdrv.
  - rewrite (Scan_success w conn log sent sshClient Hv Hconn Hdrv).
    eexists. split; [reflexivity|].
    destruct (probe_events rhost sshConfig sent
                (modules.EvClose :: closeEvents target (ssh.Close sshClient)))
      as [H1 H2]; [right; eexists; reflexivity|].
    split; [exact H1|]. intros m Hm. exists conn. rewrite Hdrv. apply H2. exact Hm.
  - rewrite (Scan_handshake_error w conn log sent err Hv Hconn Hdrv).
    eexists. split; [reflexivity|].
    destruct (probe_events rhost sshConfig sent []) as [H1 H2]; [left; reflexivity|].
    rewrite app_nil_r in H1, H2.
    split; [exact H1|]. intros m Hm. exists conn. rewrite Hdrv. apply H2. exact Hm.
Qed.

(** When the four lists are validated and the connection is established,
    the driver is called, with the address of the target and the assembled
    configuration. *)
Lemma Scan_calls_driver (w : modules.World) (conn : net.Conn) :
  allValidated ->
  connected f dialGroup target conn ->
  In (modules.EvNewClientConn rhost sshConfig) (modules.trace (snd (Scan w))).
Proof.
  intros Hv Hconn.
  destruct (NewClientConn conn rhost sshConfig ssh.new_HandshakeLog)
    as [[log sent] [sshClient|err]] eqn:Hdrv.
  - rewrite (Scan_success w conn log sent sshClient Hv Hconn Hdrv).
    cbn [snd modules.trace].
    apply in_or_app. right. apply in_or_app. right. left. reflexivity.
  - rewrite (Scan_handshake_error w conn log sent err Hv Hconn Hdrv).
    cbn [snd modules.trace].
    apply in_or_app. right. apply in_or_app. right. left. reflexivity.
Qed.

End ScanRuns.

(** ** The probe *)

Section Probe.

Variables supportedKexAlgos supportedHostKeyAlgos supportedCiphers supportedMACs
  : list string.
Variable s : modules.SSHScanner.
Variable dialGroup : zgrab2.DialerGroup.
Variable target : zgrab2.ScanTarget.

Local Abbreviation f := (modules.config s).
Local Abbreviation ScanWith driver :=
  (modules.Scan supportedKexAlgos supportedHostKeyAlgos supportedCiphers
     supportedMACs driver s dialGroup target).
Local Abbreviation sshConfig :=
  (probeConfig supportedKexAlgos supportedHostKeyAlgos supportedCiphers
     supportedMACs f).
Local Abbreviation rhost := (rhostOf target).
Local Abbreviation allValidated :=
  (validated supportedHostKeyAlgos (modules.HostKeyAlgorithms f) /\
   validated supportedKexAlgos (modules.KexAlgorithms f) /\
   validated supportedCiphers (modules.Ciphers f) /\
   validated supportedMACs (modules.MACs f)).

(** C1, amended: when the handshake fails after the version banner was
    received, [Scan] returns the handshake-error status, nil in place of the
    log, and the driver's error wrapped. The log that the driver and the
    banner callback wrote to holds the trimmed banner (and nothing after it
    when the server closed right after its banner), but it stays in the
    local object [data]: it is not returned to the caller. The status, the
    nil and the wrapped error are the same for every driver that fails. *)
Theorem Scan_handshake_failure_returns_no_log
  (w : modules.World) (conn : net.Conn) (banner : string)
  (log : ssh.HandshakeLog) (sent : list ssh.Msg) (err : error) :
  allValidated ->
  connected f dialGroup target conn ->
  net.peerVersion (net.remote conn) = inl banner ->
  ssh.NewClientConn conn rhost sshConfig ssh.new_HandshakeLog = (log, sent, inr err) ->
  (exists w',
     ScanWith ssh.NewClientConn w
     = (modules.Returned
          (zgrab2.SCAN_HANDSHAKE_ERROR, None,
           Some (Errorf_w "failed to create SSH client connection: " err)), w') /\
     modules.heap w' = log) /\
  ssh.Banner log = strings.TrimSpace banner /\
  (forall cause, net.peerKexInit (net.remote conn) = inr cause ->
     log = ssh.set_Banner (strings.TrimSpace banner) ssh.new_HandshakeLog) /\
  (forall (driver : ssh.Driver) log' sent' err',
     driver conn rhost sshConfig ssh.new_HandshakeLog = (log', sent', inr err') ->
     fst (ScanWith driver w)
     = modules.Returned
         (zgrab2.SCAN_HANDSHAKE_ERROR, None,
          Some (Errorf_w "failed to create SSH client connection: " err'))).
Proof.
  intros Hv Hconn Hver Hdrv. repeat split.
  - eexists. split.
    + apply (Scan_handshake_error _ _ _ _ _ _ _ _ w conn log sent err Hv Hconn Hdrv).
    + reflexivity.
  - pose proof (NewClientConn_banner conn rhost sshConfig ssh.new_HandshakeLog banner
                  eq_refl Hver) as H.
    rewrite Hdrv in H. exact H.
  - intros cause Hkex.
    destruct (modules.HelloOnly f) eqn:Hhello.
    + exfalso. revert Hdrv. unfold ssh.NewClientConn, ssh.phases.
      cbn [ssh.HelloOnly probeConfig]. rewrite Hhello. simpl. rewrite Hver. simpl.
      discriminate.
    + pose proof (NewClientConn_closed_after_banner conn rhost sshConfig
                    ssh.new_HandshakeLog banner cause eq_refl Hhello Hver Hkex) as H.
      rewrite Hdrv in H. inversion H. reflexivity.
  - intros driver log' sent' err' Hdrv'.
    rewrite (Scan_handshake_error _ _ _ _ _ _ _ _ w conn log' sent' err' Hv Hconn Hdrv').
    reflexivity.
Qed.

(** C6, amended: an error caused by deadline expiry while dialing, or while
    setting the deadline, is classified by [Scan] as the timeout status, and
    no log is returned (the log in the store is empty); an error of the
    handshake driver is classified as handshake-error whatever its cause,
    deadline expiry included. *)
Theorem Scan_timeout_classification (driver : ssh.Driver) (w : modules.World) :
  allValidated ->
  (forall err, zgrab2.Dial dialGroup target = inr err ->
     rootKind err = DeadlineExceeded ->
     ScanWith driver w
     = (modules.Returned
          (zgrab2.SCAN_TIMEOUT, None,
           Some (Errorf_w ("failed to dial target " ++ zgrab2.String target ++ ": ") err)),
        {| modules.heap := ssh.new_HandshakeLog;
           modules.trace := modules.trace w ++ [modules.EvDial target] |})) /\
  (forall conn err, zgrab2.Dial dialGroup target = inl conn ->
     modules.ConnectTimeout f <> 0%Z ->
     net.SetDeadline conn (modules.ConnectTimeout f) = Some err ->
     rootKind err = DeadlineExceeded ->
     ScanWith driver w
     = (modules.Returned
          (zgrab2.SCAN_TIMEOUT, None,
           Some (Errorf_w "failed to set connection deadline: " err)),
        {| modules.heap := ssh.new_HandshakeLog;
           modules.trace := modules.trace w ++ dialEvents f target |})) /\
  (forall conn log sent err, connected f dialGroup target conn ->
     driver conn rhost sshConfig ssh.new_HandshakeLog = (log, sent, inr err) ->
     fst (ScanWith driver w)
     = modules.Returned
         (zgrab2.SCAN_HANDSHAKE_ERROR, None,
          Some (Errorf_w "failed to create SSH client connection: " err))).
Proof.
  intros Hv. repeat split.
  - intros err Hdial Hkind.
    rewrite (Scan_dial_error _ _ _ _ _ _ _ _ w err Hv Hdial).
    unfold zgrab2.TryGetScanStatus. simpl. rewrite Hkind. reflexivity.
  - intros conn err Hdial Hne Hset Hkind.
    rewrite (Scan_deadline_error _ _ _ _ _ _ _ _ w conn err Hv Hdial Hne Hset).
    unfold zgrab2.TryGetScanStatus. rewrite Hkind. reflexivity.
  - intros conn log sent err Hconn Hdrv.
    rewrite (Scan_handshake_error _ _ _ _ _ _ _ _ w conn log sent err Hv Hconn Hdrv).
    reflexivity.
Qed.

(** C7: when the handshake completed, [Scan] returns the status of the nil
    error (success), the log and the nil error, whatever [Close] answers: an
    error of [Close] changes none of the three. A close error whose message
    has the text of a connection closed already is not logged; any other
    close error is logged with [log.Errorf], and that is all that happens to
    it. *)
Theorem Scan_close_error_changes_nothing (driver : ssh.Driver) (w : modules.World)
  (conn : net.Conn) (log : ssh.HandshakeLog) (sent : list ssh.Msg)
  (sshClient : ssh.Client) :
  allValidated ->
  connected f dialGroup target conn ->
  driver conn rhost sshConfig ssh.new_HandshakeLog = (log, sent, inl sshClient) ->
  exists closing,
    ScanWith driver w
    = (modules.Returned (zgrab2.TryGetScanStatus None, Some log, None),
       {| modules.heap := log;
          modules.trace :=
            modules.trace w ++ dialEvents f target
              ++ modules.EvNewClientConn rhost sshConfig :: map modules.EvSend sent
              ++ modules.EvClose :: closing |}) /\
    zgrab2.TryGetScanStatus None = zgrab2.SCAN_SUCCESS /\
    match ssh.Close sshClient with
    | None => closing = []
    | Some e =>
        if strings.Contains (Error e) "use of closed network connection"
        then closing = []
        else closing = [modules.EvLogErrorf
                          ("error closing SSH client for target "
                             ++ zgrab2.String target ++ ": " ++ Error e)]
    end.
Proof.
  intros Hv Hconn Hdrv. exists (closeEvents target (ssh.Close sshClient)).
  split; [|split; [reflexivity|]].
  - apply (Scan_success _ _ _ _ _ _ _ _ w conn log sent sshClient Hv Hconn Hdrv).
  - unfold closeEvents. destruct (ssh.Close sshClient) as [e|]; [|reflexivity].
    destruct (strings.Contains (Error e) "use of closed network connection");
      reflexivity.
Qed.

(** C9: when one of the four preference strings (host key, key exchange,
    cipher, MAC) is rejected by the validator, [Scan] ends the process with
    [log.Fatal] and the validator's error: the run exits with status 1, and
    the fatal log entry is its only event; the dialer is not called, no
    deadline is set, the driver does not run, nothing is sent. *)
Theorem Scan_invalid_preference_is_fatal (driver : ssh.Driver) (w : modules.World) :
  ~ validated supportedHostKeyAlgos (modules.HostKeyAlgorithms f) \/
  ~ validated supportedKexAlgos (modules.KexAlgorithms f) \/
  ~ validated supportedCiphers (modules.Ciphers f) \/
  ~ validated supportedMACs (modules.MACs f) ->
  exists err evs,
    In (Some err)
       [snd (ssh.validateAlgorithms (modules.HostKeyAlgorithms f) supportedHostKeyAlgos);
        snd (ssh.validateAlgorithms (modules.KexAlgorithms f) supportedKexAlgos);
        snd (ssh.validateAlgorithms (modules.Ciphers f) supportedCiphers);
        snd (ssh.validateAlgorithms (modules.MACs f) supportedMACs)] /\
    ScanWith driver w
    = (modules.Exited 1,
       {| modules.heap := ssh.new_HandshakeLog;
          modules.trace := modules.trace w ++ evs |}) /\
    evs = [modules.EvLogFatal (Error err)] /\
    Forall (fun e => isNetwork e = false) evs.
Proof.
  intros Hbad.
  assert (Hnot : ~ allValidated) by (intros (H1 & H2 & H3 & H4); tauto).
  destruct (Scan_fatal _ _ _ _ driver s dialGroup target w Hnot) as [err [Hin Hrun]].
  exists err, [modules.EvLogFatal (Error err)].
  repeat split; try assumption. constructor; [reflexivity|constructor].
Qed.

(** C2: whatever the flags, the configuration that [Scan] passes to the
    handshake driver has [DontAuthenticate] set: no flag reaches that field.
    And the driver transmits no authentication credential, under any
    configuration: in a run of [Scan], and in any call of the driver, every
    message sent is free of credentials (the only authentication request is
    the one of the method "none"). *)
Theorem Scan_never_authenticates (w : modules.World) :
  (forall driver : ssh.Driver, exists evs,
     modules.trace (snd (ScanWith driver w)) = modules.trace w ++ evs /\
     forall addr config, In (modules.EvNewClientConn addr config) evs ->
       ssh.DontAuthenticate config = true) /\
  (forall (driver : ssh.Driver) conn,
     allValidated -> connected f dialGroup target conn ->
     In (modules.EvNewClientConn rhost sshConfig)
        (modules.trace (snd (ScanWith driver w))) /\
     ssh.DontAuthenticate sshConfig = true) /\
  (exists evs,
     modules.trace (snd (ScanWith ssh.NewClientConn w)) = modules.trace w ++ evs /\
     forall m, In (modules.EvSend m) evs -> carriesCredential m = false) /\
  (forall c addr config log,
     Forall (fun m => carriesCredential m = false)
       (snd (fst (ssh.NewClientConn c addr config log)))).
Proof.
  repeat split.
  - intros driver.
    destruct (Scan_events supportedKexAlgos supportedHostKeyAlgos supportedCiphers
                supportedMACs driver s dialGroup target w) as [evs [Htr [Hcall _]]].
    exists evs. split; [exact Htr|].
    intros addr config Hin. destruct (Hcall addr config Hin) as [_ ->]. reflexivity.
  - apply (Scan_calls_driver supportedKexAlgos supportedHostKeyAlgos supportedCiphers
             supportedMACs driver s dialGroup target w conn); assumption.
  - destruct (Scan_events supportedKexAlgos supportedHostKeyAlgos supportedCiphers
                supportedMACs ssh.NewClientConn s dialGroup target w)
      as [evs [Htr [_ Hsend]]].
    exists evs. split; [exact Htr|].
    intros m Hin. destruct (Hsend m Hin) as [conn Hm].
    pose proof (NewClientConn_sends_no_credential conn rhost sshConfig
                  ssh.new_HandshakeLog) as HF.
    rewrite Forall_forall in HF. apply HF. exact Hm.
  - intros. apply NewClientConn_sends_no_credential.
Qed.

(** C8: for every banner, the banner callback of [Scan] stores the banner
    without its surrounding white space in the field [Banner] of the log,
    leaves the other fields, and returns the nil error. What is stored is
    the banner less a run of white space at each end, and it neither starts
    nor ends with white space. [Scan] hands this callback to the driver, and
    once the driver has read the identification line the trimmed banner is
    in the log, whether the later phases fail or not. *)
Theorem bannerCallback_stores_trimmed_banner (banner : string) (data : ssh.HandshakeLog) :
  modules.bannerCallback banner data
  = ({| ssh.Banner := strings.TrimSpace banner;
        ssh.AlgorithmSelection := ssh.AlgorithmSelection data;
        ssh.ServerHostKey := ssh.ServerHostKey data;
        ssh.Extensions := ssh.Extensions data;
        ssh.UserAuth := ssh.UserAuth data |}, None) /\
  (exists pre post, strings.AllSpace pre /\ strings.AllSpace post /\
     banner = (pre ++ strings.TrimSpace banner ++ post)%string) /\
  strings.leadingSpace (strings.TrimSpace banner) = None /\
  strings.trailingSpace (strings.TrimSpace banner) = None /\
  (forall (driver : ssh.Driver) w, exists evs,
     modules.trace (snd (ScanWith driver w)) = modules.trace w ++ evs /\
     forall addr config, In (modules.EvNewClientConn addr config) evs ->
       ssh.BannerCallback config = Some modules.bannerCallback) /\
  (forall c addr config log,
     ssh.BannerCallback config = Some modules.bannerCallback ->
     net.peerVersion (net.remote c) = inl banner ->
     ssh.Banner (fst (fst (ssh.NewClientConn c addr config log)))
     = strings.TrimSpace banner).
Proof.
  destruct (TrimSpace_spec banner) as (Hrun & Hlead & Htrail).
  repeat split; try assumption.
  - intros driver w.
    destruct (Scan_events supportedKexAlgos supportedHostKeyAlgos supportedCiphers
                supportedMACs driver s dialGroup target w) as [evs [Htr [Hcall _]]].
    exists evs. split; [exact Htr|].
    intros addr config Hin. destruct (Hcall addr config Hin) as [_ ->]. reflexivity.
  - intros c addr config log Hcb Hver. apply NewClientConn_banner; assumption.
Qed.

End Probe.

(** ** Concrete runs *)

Lemma sample_validated :
  validated sample.hostKeyAlgos (modules.HostKeyAlgorithms sample.flags) /\
  validated sample.kexAlgos (modules.KexAlgorithms sample.flags) /\
  validated sample.ciphers (modules.Ciphers sample.flags) /\
  validated sample.macs (modules.MACs sample.flags).
Proof. unfold validated. repeat split; vm_compute; reflexivity. Defined.

Lemma sample_connected (peer : net.Peer) :
  connected sample.flags (sample.dials peer) sample.target (sample.connTo peer).
Proof. split; [reflexivity|intros _; reflexivity]. Defined.

(** The validator on a preference with a duplicate. *)
Lemma validateAlgorithms_returns_the_tokens_witness :
  Forall (fun tok => ssh.contains sample.ciphers tok = true)
    (strings.Split "aes128-ctr,3des-cbc,aes128-ctr" ",") /\
  ssh.validateAlgorithms "aes128-ctr,3des-cbc,aes128-ctr" sample.ciphers
  = (["aes128-ctr"; "3des-cbc"; "aes128-ctr"], None).
Proof.
  assert (H : Forall (fun tok => ssh.contains sample.ciphers tok = true)
                (strings.Split "aes128-ctr,3des-cbc,aes128-ctr" ","))
    by (apply Forall_forall, forallb_forall; vm_compute; reflexivity).
  split; [exact H|].
  exact (proj1 (validateAlgorithms_returns_the_tokens
                  "aes128-ctr,3des-cbc,aes128-ctr" sample.ciphers H)).
Defined.

(** The validator on a preference with two unsupported tokens: the error
    names the first, and the valid token before it is not returned. *)
Lemma validateAlgorithms_rejects_first_unsupported_witness :
  Exists (fun tok => ssh.contains sample.ciphers tok = false)
    (strings.Split "aes128-ctr,bogus,3des-cbc,bad" ",") /\
  ssh.validateAlgorithms "aes128-ctr,bogus,3des-cbc,bad" sample.ciphers
  = (nil, Some (errors_New ("algorithm not supported: " ++ dquote ++ "bogus" ++ dquote))) /\
  exists pre alg post err,
    strings.Split "aes128-ctr,bogus,3des-cbc,bad" "," = pre ++ alg :: post /\
    Forall (fun tok => ssh.contains sample.ciphers tok = true) pre /\
    ssh.contains sample.ciphers alg = false /\
    ssh.validateAlgorithms "aes128-ctr,bogus,3des-cbc,bad" sample.ciphers
    = (nil, Some err) /\
    Error err = ("algorithm not supported: " ++ dquote ++ alg ++ dquote)%string.
Proof.
  assert (H : Exists (fun tok => ssh.contains sample.ciphers tok = false)
                (strings.Split "aes128-ctr,bogus,3des-cbc,bad" ","))
    by (apply Exists_exists; exists "bogus"; split;
        [vm_compute; right; left; reflexivity|vm_compute; reflexivity]).
  split; [exact H|]. split; [reflexivity|].
  exact (validateAlgorithms_rejects_first_unsupported
           "aes128-ctr,bogus,3des-cbc,bad" sample.ciphers H).
Defined.

(** C5, as stated, fails: on the empty string the validator does not
    succeed with an empty list, it fails with the error that names the empty
    token. *)
Lemma validateAlgorithms_empty_string_is_rejected :
  ssh.validateAlgorithms "" sample.ciphers
  = (nil, Some (errors_New ("algorithm not supported: " ++ dquote ++ dquote))) /\
  ssh.validateAlgorithms "" sample.ciphers <> (nil, None).
Proof. split; [reflexivity|discriminate]. Qed.

(** The empty string and a padded identifier against the sample ciphers. *)
Lemma validateAlgorithms_empty_input_and_padding_witness :
  ssh.contains sample.ciphers "" = false /\
  free_of "," " aes128-ctr " = true /\
  ssh.contains sample.ciphers "aes128-ctr" = true /\
  ssh.contains sample.ciphers " aes128-ctr " = false /\
  ssh.validateAlgorithms "" sample.ciphers
  = (nil, Some (errors_New (ssh.notSupported ""))) /\
  ssh.validateAlgorithms " aes128-ctr " sample.ciphers
  = (nil, Some (errors_New (ssh.notSupported " aes128-ctr "))).
Proof.
  destruct (validateAlgorithms_empty_input_and_padding sample.ciphers)
    as (_ & Hempty & _ & Hpad).
  do 4 (split; [reflexivity|]). split.
  - exact (Hempty eq_refl).
  - exact (Hpad " " "aes128-ctr" " " eq_refl eq_refl eq_refl).
Defined.

(** A setter on a rejected input. *)
Lemma setters_leave_config_on_error_witness :
  snd (ssh.validateAlgorithms "aes128-ctr,bogus" sample.ciphers)
  = Some (errors_New (ssh.notSupported "bogus")) /\
  ssh.SetCiphers sample.ciphers
    (ssh.MakeSSHConfig sample.kexAlgos sample.hostKeyAlgos sample.ciphers sample.macs)
    "aes128-ctr,bogus"
  = (ssh.MakeSSHConfig sample.kexAlgos sample.hostKeyAlgos sample.ciphers sample.macs,
     Some (errors_New (ssh.notSupported "bogus"))).
Proof.
  split; [reflexivity|].
  destruct (setters_leave_config_on_error sample.kexAlgos sample.hostKeyAlgos
              sample.ciphers sample.macs
              (ssh.MakeSSHConfig sample.kexAlgos sample.hostKeyAlgos sample.ciphers
                 sample.macs)
              "aes128-ctr,bogus") as (_ & _ & H & _).
  exact (H (errors_New (ssh.notSupported "bogus")) eq_refl).
Defined.

(** C1, as stated, fails: the server sends its banner and closes; the
    callback has stored the banner in the log, the status is
    handshake-error, and what [Scan] returns in place of the log is nil. *)
Lemma Scan_closed_after_banner_returns_nil :
  net.peerVersion sample.closesAfterBanner = inl sample.bannerLine /\
  fst (sample.Scan sample.scanner (sample.dials sample.closesAfterBanner)
         sample.target sample.world0)
  = modules.Returned
      (zgrab2.SCAN_HANDSHAKE_ERROR, None,
       Some (Errorf_w "failed to create SSH client connection: "
               (Errorf_w "key exchange: " sample.EOF))) /\
  modules.heap (snd (sample.Scan sample.scanner (sample.dials sample.closesAfterBanner)
                       sample.target sample.world0))
  = sample.bannerOnlyLog /\
  ~ (exists status log err,
       fst (sample.Scan sample.scanner (sample.dials sample.closesAfterBanner)
              sample.target sample.world0)
       = modules.Returned (status, Some log, err)).
Proof.
  assert (E : fst (sample.Scan sample.scanner (sample.dials sample.closesAfterBanner)
                     sample.target sample.world0)
              = modules.Returned
                  (zgrab2.SCAN_HANDSHAKE_ERROR, None,
                   Some (Errorf_w "failed to create SSH client connection: "
                           (Errorf_w "key exchange: " sample.EOF))))
    by (vm_compute; reflexivity).
  split; [reflexivity|]. split; [exact E|]. split.
  - vm_compute. reflexivity.
  - intros (status & log & err & H). rewrite E in H. discriminate.
Qed.

(** The same run through the amended statement. *)
Lemma Scan_handshake_failure_returns_no_log_witness :
  fst (sample.Scan sample.scanner (sample.dials sample.closesAfterBanner)
         sample.target sample.world0)
  = modules.Returned
      (zgrab2.SCAN_HANDSHAKE_ERROR, None,
       Some (Errorf_w "failed to create SSH client connection: "
               (Errorf_w "key exchange: " sample.EOF))) /\
  modules.heap (snd (sample.Scan sample.scanner (sample.dials sample.closesAfterBanner)
                       sample.target sample.world0))
  = sample.bannerOnlyLog.
Proof.
  destruct (Scan_handshake_failure_returns_no_log
              sample.kexAlgos sample.hostKeyAlgos sample.ciphers sample.macs
              sample.scanner (sample.dials sample.closesAfterBanner) sample.target
              sample.world0 (sample.connTo sample.closesAfterBanner)
              sample.bannerLine sample.bannerOnlyLog
              [ssh.MsgVersion "SSH-2.0-Go";
               ssh.MsgKexInit sample.kexAlgos sample.hostKeyAlgos sample.ciphers
                 sample.macs]
              (Errorf_w "key exchange: " sample.EOF)
              sample_validated (sample_connected sample.closesAfterBanner)
              eq_refl eq_refl)
    as ((w' & Hrun & Hheap) & _).
  unfold sample.Scan. rewrite Hrun. split; [reflexivity|exact Hheap].
Defined.

(** C6, as stated, fails: the server sends its banner and then nothing; the
    read of the key exchange ends with the deadline, the error that [Scan]
    returns is caused by that expiry, and the status is handshake-error, not
    timeout. *)
Lemma Scan_handshake_timeout_is_handshake_error :
  net.peerKexInit sample.stallsAfterBanner = inr sample.ioTimeout /\
  rootKind sample.ioTimeout = DeadlineExceeded /\
  fst (sample.Scan sample.scanner (sample.dials sample.stallsAfterBanner)
         sample.target sample.world0)
  = modules.Returned
      (zgrab2.SCAN_HANDSHAKE_ERROR, None,
       Some (Errorf_w "failed to create SSH client connection: "
               (Errorf_w "key exchange: " sample.ioTimeout))) /\
  ~ (exists log err,
       fst (sample.Scan sample.scanner (sample.dials sample.stallsAfterBanner)
              sample.target sample.world0)
       = modules.Returned (zgrab2.SCAN_TIMEOUT, log, err)).
Proof.
  assert (E : fst (sample.Scan sample.scanner (sample.dials sample.stallsAfterBanner)
                     sample.target sample.world0)
              = modules.Returned
                  (zgrab2.SCAN_HANDSHAKE_ERROR, None,
                   Some (Errorf_w "failed to create SSH client connection: "
                           (Errorf_w "key exchange: " sample.ioTimeout))))
    by (vm_compute; reflexivity).
  split; [reflexivity|]. split; [reflexivity|]. split; [exact E|].
  intros (log & err & H). rewrite E in H. discriminate.
Qed.

(** A dial that ends with the deadline: the status is timeout, no log is
    returned, only the dial has happened. *)
Lemma Scan_timeout_classification_witness :
  zgrab2.Dial (sample.dialFails sample.ioTimeout) sample.target = inr sample.ioTimeout /\
  rootKind sample.ioTimeout = DeadlineExceeded /\
  sample.Scan sample.scanner (sample.dialFails sample.ioTimeout) sample.target
    sample.world0
  = (modules.Returned
       (zgrab2.SCAN_TIMEOUT, None,
        Some (Errorf_w "failed to dial target 192.0.2.7:22: " sample.ioTimeout)),
     {| modules.heap := ssh.new_HandshakeLog;
        modules.trace := [modules.EvDial sample.target] |}).
Proof.
  split; [reflexivity|]. split; [reflexivity|].
  destruct (Scan_timeout_classification
              sample.kexAlgos sample.hostKeyAlgos sample.ciphers sample.macs
              sample.scanner (sample.dialFails sample.ioTimeout) sample.target
              ssh.NewClientConn sample.world0 sample_validated) as (Hdial & _ & _).
  exact (Hdial sample.ioTimeout eq_refl eq_refl).
Defined.

(** A completed handshake with a peer that closed first: the error of
    [Close] is neither returned nor logged. *)
Lemma Scan_close_error_changes_nothing_witness :
  ssh.Close {| ssh.Close := Some sample.alreadyClosed |} = Some sample.alreadyClosed /\
  strings.Contains (Error sample.alreadyClosed) "use of closed network connection" = true /\
  fst (sample.Scan sample.scanner (sample.dials (sample.completes (Some sample.alreadyClosed)))
         sample.target sample.world0)
  = modules.Returned (zgrab2.SCAN_SUCCESS, Some sample.completeLog, None) /\
  existsb (fun e => match e with modules.EvLogErrorf _ => true | _ => false end)
    (modules.trace
       (snd (sample.Scan sample.scanner
               (sample.dials (sample.completes (Some sample.alreadyClosed)))
               sample.target sample.world0)))
  = false.
Proof.
  split; [reflexivity|]. split; [reflexivity|].
  destruct (Scan_close_error_changes_nothing
              sample.kexAlgos sample.hostKeyAlgos sample.ciphers sample.macs
              sample.scanner (sample.dials (sample.completes (Some sample.alreadyClosed)))
              sample.target ssh.NewClientConn sample.world0
              (sample.connTo (sample.completes (Some sample.alreadyClosed)))
              sample.completeLog
              [ssh.MsgVersion "SSH-2.0-Go";
               ssh.MsgKexInit sample.kexAlgos sample.hostKeyAlgos sample.ciphers
                 sample.macs]
              {| ssh.Close := Some sample.alreadyClosed |}
              sample_validated
              (sample_connected (sample.completes (Some sample.alreadyClosed)))
              eq_refl)
    as (closing & Hrun & _ & Hclose).
  simpl in Hclose. subst closing. unfold sample.Scan. rewrite Hrun.
  split; reflexivity.
Defined.

(** The same handshake with another error of [Close]: the result is the
    same, and the error is logged. *)
Lemma Scan_close_error_is_logged :
  fst (sample.Scan sample.scanner (sample.dials (sample.completes (Some sample.brokenPipe)))
         sample.target sample.world0)
  = modules.Returned (zgrab2.SCAN_SUCCESS, Some sample.completeLog, None) /\
  last (modules.trace
          (snd (sample.Scan sample.scanner
                  (sample.dials (sample.completes (Some sample.brokenPipe)))
                  sample.target sample.world0))) modules.EvClose
  = modules.EvLogErrorf
      "error closing SSH client for target 192.0.2.7:22: write tcp 192.0.2.7:22: broken pipe".
Proof. split; vm_compute; reflexivity. Qed.

(** The scenario of the unsupported cipher: the process exits and the fatal
    log entry is the only event. *)
Lemma Scan_invalid_preference_is_fatal_witness :
  ~ validated sample.ciphers "bogus-cipher" /\
  exists err evs,
    In (Some err)
       [snd (ssh.validateAlgorithms (modules.HostKeyAlgorithms sample.flags)
               sample.hostKeyAlgos);
        snd (ssh.validateAlgorithms (modules.KexAlgorithms sample.flags)
               sample.kexAlgos);
        snd (ssh.validateAlgorithms "bogus-cipher" sample.ciphers);
        snd (ssh.validateAlgorithms (modules.MACs sample.flags) sample.macs)] /\
    sample.Scan {| modules.config := sample.withCiphers "bogus-cipher" |}
      (sample.dials (sample.completes None)) sample.target sample.world0
    = (modules.Exited 1,
       {| modules.heap := ssh.new_HandshakeLog; modules.trace := evs |}) /\
    evs = [modules.EvLogFatal (Error err)] /\
    Forall (fun e => isNetwork e = false) evs.
Proof.
  assert (H : ~ validated sample.ciphers "bogus-cipher")
    by (unfold validated; vm_compute; discriminate).
  split; [exact H|].
  exact (Scan_invalid_preference_is_fatal
           sample.kexAlgos sample.hostKeyAlgos sample.ciphers sample.macs
           {| modules.config := sample.withCiphers "bogus-cipher" |}
           (sample.dials (sample.completes None)) sample.target
           ssh.NewClientConn sample.world0
           (or_intror (or_intror (or_introl H)))).
Defined.

(** The message of the fatal log entry in that scenario. *)
Lemma Scan_bogus_cipher_run :
  sample.Scan {| modules.config := sample.withCiphers "bogus-cipher" |}
    (sample.dials (sample.completes None)) sample.target sample.world0
  = (modules.Exited 1,
     {| modules.heap := ssh.new_HandshakeLog;
        modules.trace :=
          [modules.EvLogFatal ("algorithm not supported: " ++ dquote ++ "bogus-cipher"
                                 ++ dquote)] |}).
Proof. vm_compute. reflexivity. Qed.

(** The banner callback on the identification line of the sample server:
    the carriage return and the line feed are trimmed. *)
Lemma bannerCallback_on_sample_banner :
  modules.bannerCallback sample.bannerLine ssh.new_HandshakeLog
  = (sample.bannerOnlyLog, None).
Proof. vm_compute. reflexivity. Qed.

(** [TrimSpace] on white space of several bytes: a no-break space and a
    space before, a hair space inside, a hair space, an ideographic space
    and a tab after; and on a byte that is no valid rune next to spaces. *)
Lemma TrimSpace_on_unicode_space :
  strings.TrimSpace
    (strings.bytes [194; 160; 32; 65; 226; 128; 138; 66; 226; 128; 138; 227; 128; 128; 9])
  = strings.bytes [65; 226; 128; 138; 66] /\
  strings.TrimSpace (strings.bytes [32; 194; 32]) = strings.bytes [194].
Proof. split; vm_compute; reflexivity. Qed.

(** The configuration that reaches the driver in a sample run. *)
Lemma Scan_sample_driver_call :
  In (modules.EvNewClientConn "192.0.2.7:22"
        (probeConfig sample.kexAlgos sample.hostKeyAlgos sample.ciphers sample.macs
           sample.flags))
     (modules.trace
        (snd (sample.Scan sample.scanner (sample.dials (sample.completes None))
                sample.target sample.world0))) /\
  ssh.DontAuthenticate
    (probeConfig sample.kexAlgos sample.hostKeyAlgos sample.ciphers sample.macs
       sample.flags) = true.
Proof.
  split; [|reflexivity].
  apply (Scan_calls_driver sample.kexAlgos sample.hostKeyAlgos sample.ciphers
           sample.macs ssh.NewClientConn sample.scanner
           (sample.dials (sample.completes None)) sample.target sample.world0
           (sample.connTo (sample.completes None))
           sample_validated (sample_connected _)).
Qed.

(** * Further properties of the code *)

(** ** The validator *)

Lemma validated_tokens (supported : list string) (value : string) :
  validated supported value ->
  ssh.validateAlgorithms value supported = (strings.Split value ",", None).
Proof.
  unfold validated. intros H.
  destruct (validateAlgorithms_cases value supported) as [[E _]|[alg [E _]]];
    [exact E|rewrite E in H; discriminate].
Qed.

(** X1: [validateAlgorithms] accepts a string exactly when every token is
    supported. An accepted string gives a list that is never empty, whose
    elements are all in the supported set and free of commas; a rejected
    string gives nil for the list. *)
Theorem validateAlgorithms_accepts_iff (value : string) (supported : list string) :
  (snd (ssh.validateAlgorithms value supported) = None <->
   Forall (fun tok => In tok supported) (strings.Split value ",")) /\
  (snd (ssh.validateAlgorithms value supported) = None ->
   fst (ssh.validateAlgorithms value supported) <> nil /\
   Forall (fun tok => In tok supported /\ free_of "," tok = true)
     (fst (ssh.validateAlgorithms value supported))) /\
  (snd (ssh.validateAlgorithms value supported) <> None ->
   fst (ssh.validateAlgorithms value supported) = nil).
Proof.
  destruct (validateAlgorithms_cases value supported) as [[E HF]|[alg [E HE]]];
    rewrite E; cbn [fst snd].
  - split; [|split].
    + split; [|reflexivity]. intros _.
      apply Forall_impl with (2 := HF). intros a Ha. apply contains_In. exact Ha.
    + intros _. split; [apply Split_not_nil|].
      pose proof (Split_free_of value ",") as Hfree.
      rewrite Forall_forall in *. intros tok Hin. split.
      * apply contains_In. apply HF. exact Hin.
      * apply Hfree. exact Hin.
    + intros H. congruence.
  - split; [|split].
    + split; [discriminate|]. intros HF. exfalso.
      rewrite Exists_exists in HE. destruct HE as [tok [Hin Hno]].
      rewrite Forall_forall in HF. specialize (HF tok Hin).
      apply contains_In in HF. congruence.
    + discriminate.
    + reflexivity.
Qed.

Lemma Split_append_sep (a b : string) (sep : ascii) :
  strings.Split (a ++ String.String sep b) sep
  = strings.Split a sep ++ strings.Split b sep.
Proof.
  induction a as [|c a IH]; simpl.
  - rewrite Ascii.eqb_refl. reflexivity.
  - rewrite IH. destruct (Ascii.eqb c sep); [reflexivity|].
    pose proof (Split_not_nil a sep) as Hnn.
    destruct (strings.Split a sep) as [|t ts]; [congruence|reflexivity].
Qed.

Lemma validateLoop_accumulator (supported toks algs : list string) :
  ssh.validateLoop supported toks algs
  = match ssh.validateLoop supported toks nil with
    | (l, None) => (algs ++ l, None)
    | (_, Some e) => (nil, Some e)
    end.
Proof.
  revert algs. induction toks as [|t ts IH]; intros algs; simpl.
  - rewrite app_nil_r. reflexivity.
  - destruct (ssh.contains supported t); simpl; [|reflexivity].
    rewrite (IH (algs ++ [t])), (IH [t]).
    destruct (ssh.validateLoop supported ts nil) as [l [e|]]; [reflexivity|].
    rewrite <- app_assoc. reflexivity.
Qed.

Lemma validateLoop_append (supported l1 l2 algs : list string) :
  ssh.validateLoop supported (l1 ++ l2) algs
  = match ssh.validateLoop supported l1 algs with
    | (algs', None) => ssh.validateLoop supported l2 algs'
    | (_, Some e) => (nil, Some e)
    end.
Proof.
  revert algs. induction l1 as [|t ts IH]; intros algs; simpl; [reflexivity|].
  destruct (ssh.contains supported t); simpl; [apply IH|reflexivity].
Qed.

(** X2: validating two preference strings joined by a comma is validating
    the one and then the other: the list is the two lists one after the
    other, and the error is that of the first string that is rejected (of
    its first unsupported token), the second string being tested only when
    the first is accepted. *)
Theorem validateAlgorithms_comma_append (a b : string) (supported : list string) :
  ssh.validateAlgorithms (a ++ "," ++ b) supported
  = match ssh.validateAlgorithms a supported with
    | (la, None) =>
        match ssh.validateAlgorithms b supported with
        | (lb, None) => (la ++ lb, None)
        | (_, Some e) => (nil, Some e)
        end
    | (_, Some e) => (nil, Some e)
    end.
Proof.
  unfold ssh.validateAlgorithms.
  change (a ++ "," ++ b)%string with (a ++ String.String "," b)%string.
  rewrite Split_append_sep, validateLoop_append.
  destruct (ssh.validateLoop supported (strings.Split a ",") nil) as [la [e|]];
    [reflexivity|].
  rewrite validateLoop_accumulator.
  destruct (ssh.validateLoop supported (strings.Split b ",") nil) as [lb [e|]];
    reflexivity.
Qed.

Lemma catalog_contains_itself (supported : list string) :
  Forall (fun tok => ssh.contains supported tok = true) supported.
Proof. rewrite Forall_forall. intros tok Hin. apply contains_In. exact Hin. Qed.

(** X3: every catalog validates against itself. When the supported set is
    not empty and none of its identifiers has a comma, the comma-joined
    catalog is accepted and the list returned is the catalog, in its
    order. *)
Theorem validateAlgorithms_of_joined_catalog (supported : list string) :
  supported <> nil ->
  Forall (fun alg => free_of "," alg = true) supported ->
  ssh.validateAlgorithms (strings.Join supported ",") supported = (supported, None).
Proof.
  intros Hne Hfree. unfold ssh.validateAlgorithms.
  rewrite (Split_Join supported "," Hne Hfree).
  rewrite validateLoop_valid; [reflexivity|].
  apply catalog_contains_itself.
Qed.

Lemma validateAlgorithms_of_joined_catalog_witness :
  sample.macs <> nil /\
  Forall (fun alg => free_of "," alg = true) sample.macs /\
  ssh.validateAlgorithms (strings.Join sample.macs ",") sample.macs
  = (sample.macs, None).
Proof.
  assert (Hne : sample.macs <> nil) by discriminate.
  assert (Hfree : Forall (fun alg => free_of "," alg = true) sample.macs)
    by (apply Forall_forall, forallb_forall; vm_compute; reflexivity).
  split; [exact Hne|]. split; [exact Hfree|].
  exact (validateAlgorithms_of_joined_catalog sample.macs Hne Hfree).
Defined.

(** ** The setters *)

(** X4: each setter returns nil exactly when the validator accepts its
    input, and then it assigns the token list of the input to its own field
    and to no other. *)
Theorem setters_assign_the_tokens
  (supportedKexAlgos supportedHostKeyAlgos supportedCiphers supportedMACs : list string)
  (c : ssh.ClientConfig) (value : string) :
  ((snd (ssh.SetKexAlgorithms supportedKexAlgos c value) = None <->
    validated supportedKexAlgos value) /\
   (validated supportedKexAlgos value ->
    ssh.SetKexAlgorithms supportedKexAlgos c value
    = (ssh.set_KeyExchanges (strings.Split value ",") c, None))) /\
  ((snd (ssh.SetHostKeyAlgorithms supportedHostKeyAlgos c value) = None <->
    validated supportedHostKeyAlgos value) /\
   (validated supportedHostKeyAlgos value ->
    ssh.SetHostKeyAlgorithms supportedHostKeyAlgos c value
    = (ssh.set_HostKeyAlgorithms (strings.Split value ",") c, None))) /\
  ((snd (ssh.SetCiphers supportedCiphers c value) = None <->
    validated supportedCiphers value) /\
   (validated supportedCiphers value ->
    ssh.SetCiphers supportedCiphers c value
    = (ssh.set_Ciphers (strings.Split value ",") c, None))) /\
  ((snd (ssh.SetMACs supportedMACs c value) = None <->
    validated supportedMACs value) /\
   (validated supportedMACs value ->
    ssh.SetMACs supportedMACs c value
    = (ssh.set_MACs (strings.Split value ",") c, None))).
Proof.
  assert (H : forall supported,
            (validated supported value ->
             ssh.validateAlgorithms value supported = (strings.Split value ",", None)))
    by (intros; apply validated_tokens; assumption).
  unfold ssh.SetKexAlgorithms, ssh.SetHostKeyAlgorithms, ssh.SetCiphers, ssh.SetMACs.
  repeat match goal with |- _ /\ _ => split end;
    try (unfold validated;
         match goal with
         | |- context [ssh.validateAlgorithms ?v ?s] =>
             destruct (ssh.validateAlgorithms v s) as [algs [e|]]
         end; cbn [fst snd]; split; congruence);
    intros Hv; rewrite (H _ Hv); reflexivity.
Qed.

Ltac setters_cases :=
  unfold ssh.SetKexAlgorithms, ssh.SetHostKeyAlgorithms, ssh.SetCiphers, ssh.SetMACs;
  repeat match goal with
         | |- context [ssh.validateAlgorithms ?v ?s] =>
             destruct (ssh.validateAlgorithms v s) as [? [?|]]
         end;
  cbn [fst snd]; try reflexivity.

(** X5: setters of different fields commute: the configuration after two of
    them does not depend on the order of the calls, whether they succeed or
    not. *)
Theorem setters_commute
  (supportedKexAlgos supportedHostKeyAlgos supportedCiphers supportedMACs : list string)
  (c : ssh.ClientConfig) (v1 v2 : string) :
  fst (ssh.SetHostKeyAlgorithms supportedHostKeyAlgos
         (fst (ssh.SetKexAlgorithms supportedKexAlgos c v1)) v2)
  = fst (ssh.SetKexAlgorithms supportedKexAlgos
           (fst (ssh.SetHostKeyAlgorithms supportedHostKeyAlgos c v2)) v1) /\
  fst (ssh.SetCiphers supportedCiphers
         (fst (ssh.SetKexAlgorithms supportedKexAlgos c v1)) v2)
  = fst (ssh.SetKexAlgorithms supportedKexAlgos
           (fst (ssh.SetCiphers supportedCiphers c v2)) v1) /\
  fst (ssh.SetMACs supportedMACs
         (fst (ssh.SetKexAlgorithms supportedKexAlgos c v1)) v2)
  = fst (ssh.SetKexAlgorithms supportedKexAlgos
           (fst (ssh.SetMACs supportedMACs c v2)) v1) /\
  fst (ssh.SetCiphers supportedCiphers
         (fst (ssh.SetHostKeyAlgorithms supportedHostKeyAlgos c v1)) v2)
  = fst (ssh.SetHostKeyAlgorithms supportedHostKeyAlgos
           (fst (ssh.SetCiphers supportedCiphers c v2)) v1) /\
  fst (ssh.SetMACs supportedMACs
         (fst (ssh.SetHostKeyAlgorithms supportedHostKeyAlgos c v1)) v2)
  = fst (ssh.SetHostKeyAlgorithms supportedHostKeyAlgos
           (fst (ssh.SetMACs supportedMACs c v2)) v1) /\
  fst (ssh.SetMACs supportedMACs
         (fst (ssh.SetCiphers supportedCiphers c v1)) v2)
  = fst (ssh.SetCiphers supportedCiphers
           (fst (ssh.SetMACs supportedMACs c v2)) v1).
Proof.
  repeat match goal with |- _ /\ _ => split end; setters_cases.
Qed.

(** X6: on one field the last accepted call wins: after two calls of a
    setter the field holds the tokens of the second input when it is
    accepted, and what the first call left when it is rejected; a rejected
    input never puts the field back to a default. *)
Theorem setters_last_accepted_wins
  (supportedKexAlgos supportedHostKeyAlgos supportedCiphers supportedMACs : list string)
  (c : ssh.ClientConfig) (v1 v2 : string) :
  (fst (ssh.SetKexAlgorithms supportedKexAlgos
          (fst (ssh.SetKexAlgorithms supportedKexAlgos c v1)) v2)
   = match snd (ssh.validateAlgorithms v2 supportedKexAlgos) with
     | None => fst (ssh.SetKexAlgorithms supportedKexAlgos c v2)
     | Some _ => fst (ssh.SetKexAlgorithms supportedKexAlgos c v1)
     end) /\
  (fst (ssh.SetHostKeyAlgorithms supportedHostKeyAlgos
          (fst (ssh.SetHostKeyAlgorithms supportedHostKeyAlgos c v1)) v2)
   = match snd (ssh.validateAlgorithms v2 supportedHostKeyAlgos) with
     | None => fst (ssh.SetHostKeyAlgorithms supportedHostKeyAlgos c v2)
     | Some _ => fst (ssh.SetHostKeyAlgorithms supportedHostKeyAlgos c v1)
     end) /\
  (fst (ssh.SetCiphers supportedCiphers
          (fst (ssh.SetCiphers supportedCiphers c v1)) v2)
   = match snd (ssh.validateAlgorithms v2 supportedCiphers) with
     | None => fst (ssh.SetCiphers supportedCiphers c v2)
     | Some _ => fst (ssh.SetCiphers supportedCiphers c v1)
     end) /\
  (fst (ssh.SetMACs supportedMACs
          (fst (ssh.SetMACs supportedMACs c v1)) v2)
   = match snd (ssh.validateAlgorithms v2 supportedMACs) with
     | None => fst (ssh.SetMACs supportedMACs c v2)
     | Some _ => fst (ssh.SetMACs supportedMACs c v1)
     end).
Proof.
  repeat match goal with |- _ /\ _ => split end; setters_cases.
Qed.

(** X7: [MakeSSHConfig] is the zero configuration with the four setters
    applied to the comma-joined catalogs: the default configuration offers
    every supported algorithm, and each catalog passes its own setter. This
    needs catalogs that are not empty and identifiers without commas. *)
Theorem MakeSSHConfig_by_setters
  (supportedKexAlgos supportedHostKeyAlgos supportedCiphers supportedMACs : list string) :
  supportedKexAlgos <> nil -> supportedHostKeyAlgos <> nil ->
  supportedCiphers <> nil -> supportedMACs <> nil ->
  Forall (fun alg => free_of "," alg = true)
    (supportedKexAlgos ++ supportedHostKeyAlgos ++ supportedCiphers ++ supportedMACs) ->
  let c1 := ssh.SetKexAlgorithms supportedKexAlgos ssh.new_ClientConfig
              (strings.Join supportedKexAlgos ",") in
  let c2 := ssh.SetHostKeyAlgorithms supportedHostKeyAlgos (fst c1)
              (strings.Join supportedHostKeyAlgos ",") in
  let c3 := ssh.SetCiphers supportedCiphers (fst c2)
              (strings.Join supportedCiphers ",") in
  let c4 := ssh.SetMACs supportedMACs (fst c3)
              (strings.Join supportedMACs ",") in
  snd c1 = None /\ snd c2 = None /\ snd c3 = None /\ snd c4 = None /\
  fst c4 = ssh.MakeSSHConfig supportedKexAlgos supportedHostKeyAlgos supportedCiphers
             supportedMACs.
Proof.
  intros H1 H2 H3 H4 HF.
  apply Forall_app in HF. destruct HF as [F1 HF].
  apply Forall_app in HF. destruct HF as [F2 HF].
  apply Forall_app in HF. destruct HF as [F3 F4].
  unfold ssh.SetKexAlgorithms, ssh.SetHostKeyAlgorithms, ssh.SetCiphers, ssh.SetMACs,
    ssh.validateAlgorithms.
  rewrite (Split_Join _ "," H1 F1), (Split_Join _ "," H2 F2),
    (Split_Join _ "," H3 F3), (Split_Join _ "," H4 F4).
  rewrite !validateLoop_valid by apply catalog_contains_itself.
  cbn. repeat split.
Qed.

Lemma MakeSSHConfig_by_setters_witness :
  fst (ssh.SetMACs sample.macs
         (fst (ssh.SetCiphers sample.ciphers
                 (fst (ssh.SetHostKeyAlgorithms sample.hostKeyAlgos
                         (fst (ssh.SetKexAlgorithms sample.kexAlgos ssh.new_ClientConfig
                                 (strings.Join sample.kexAlgos ",")))
                         (strings.Join sample.hostKeyAlgos ",")))
                 (strings.Join sample.ciphers ",")))
         (strings.Join sample.macs ","))
  = ssh.MakeSSHConfig sample.kexAlgos sample.hostKeyAlgos sample.ciphers sample.macs.
Proof.
  assert (N1 : sample.kexAlgos <> nil) by discriminate.
  assert (N2 : sample.hostKeyAlgos <> nil) by discriminate.
  assert (N3 : sample.ciphers <> nil) by discriminate.
  assert (N4 : sample.macs <> nil) by discriminate.
  assert (HF : Forall (fun alg => free_of "," alg = true)
                 (sample.kexAlgos ++ sample.hostKeyAlgos ++ sample.ciphers
                    ++ sample.macs))
    by (apply Forall_forall, forallb_forall; vm_compute; reflexivity).
  exact (proj2 (proj2 (proj2 (proj2
           (MakeSSHConfig_by_setters sample.kexAlgos sample.hostKeyAlgos
              sample.ciphers sample.macs N1 N2 N3 N4 HF))))).
Defined.

(** ** More on the runs of [Scan] *)

Section ScanCases.

Variables supportedKexAlgos supportedHostKeyAlgos supportedCiphers supportedMACs
  : list string.
Variable NewClientConn : ssh.Driver.
Variable s : modules.SSHScanner.
Variable dialGroup : zgrab2.DialerGroup.
Variable target : zgrab2.ScanTarget.

Local Abbreviation f := (modules.config s).
Local Abbreviation Scan :=
  (modules.Scan supportedKexAlgos supportedHostKeyAlgos supportedCiphers
     supportedMACs NewClientConn s dialGroup target).
Local Abbreviation sshConfig :=
  (probeConfig supportedKexAlgos supportedHostKeyAlgos supportedCiphers
     supportedMACs f).
Local Abbreviation rhost := (rhostOf target).
Local Abbreviation allValidated :=
  (validated supportedHostKeyAlgos (modules.HostKeyAlgorithms f) /\
   validated supportedKexAlgos (modules.KexAlgorithms f) /\
   validated supportedCiphers (modules.Ciphers f) /\
   validated supportedMACs (modules.MACs f)).
Local Abbreviation rejected :=
  (firstRejected supportedKexAlgos supportedHostKeyAlgos supportedCiphers
     supportedMACs f).

Local Abbreviation ScanCase :=
  (ScanCase supportedKexAlgos supportedHostKeyAlgos supportedCiphers supportedMACs
     NewClientConn s dialGroup target).

Lemma rejected_None : rejected = None <-> allValidated.
Proof.
  unfold firstRejected, validated.
  destruct (snd (ssh.validateAlgorithms (modules.HostKeyAlgorithms f) supportedHostKeyAlgos));
    [split; [discriminate|intros (H & _); discriminate]|].
  destruct (snd (ssh.validateAlgorithms (modules.KexAlgorithms f) supportedKexAlgos));
    [split; [discriminate|intros (_ & H & _); discriminate]|].
  destruct (snd (ssh.validateAlgorithms (modules.Ciphers f) supportedCiphers));
    [split; [discriminate|intros (_ & _ & H & _); discriminate]|].
  destruct (snd (ssh.validateAlgorithms (modules.MACs f) supportedMACs));
    [split; [discriminate|intros (_ & _ & _ & H); discriminate]|].
  split; intros; repeat split.
Qed.

(** [log.Fatal] gets the error of the first check that fails. *)
Lemma Scan_fatal_first (w : modules.World) (err : error) :
  rejected = Some err ->
  Scan w = (modules.Exited 1,
            {| modules.heap := ssh.new_HandshakeLog;
               modules.trace := modules.trace w ++ [modules.EvLogFatal (Error err)] |}).
Proof.
  unfold firstRejected, modules.Scan,
    ssh.SetHostKeyAlgorithms, ssh.SetKexAlgorithms, ssh.SetCiphers, ssh.SetMACs.
  destruct (ssh.validateAlgorithms (modules.HostKeyAlgorithms f) supportedHostKeyAlgos)
    as [a1 [e1|]]; cbn [fst snd];
    [intros H; inversion H; subst; reflexivity|].
  destruct (ssh.validateAlgorithms (modules.KexAlgorithms f) supportedKexAlgos)
    as [a2 [e2|]]; cbn [fst snd];
    [intros H; inversion H; subst; reflexivity|].
  destruct (ssh.validateAlgorithms (modules.Ciphers f) supportedCiphers)
    as [a3 [e3|]]; cbn [fst snd];
    [intros H; inversion H; subst; reflexivity|].
  destruct (ssh.validateAlgorithms (modules.MACs f) supportedMACs)
    as [a4 [e4|]]; cbn [fst snd];
    [intros H; inversion H; subst; reflexivity|discriminate].
Qed.

(** Every run is one of the five, and which one does not depend on the
    store before the run. *)
Lemma Scan_cases :
  exists out log evs,
    ScanCase out log evs /\
    forall w, Scan w
              = (out, {| modules.heap := log; modules.trace := modules.trace w ++ evs |}).
Proof.
  destruct rejected as [err|] eqn:Hrej.
  { do 3 eexists. split; [constructor; exact Hrej|].
    intros w. apply (Scan_fatal_first w err Hrej). }
  apply rejected_None in Hrej. rename Hrej into Hv.
  destruct (zgrab2.Dial dialGroup target) as [conn|err] eqn:Hdial.
  2:{ do 3 eexists. split; [constructor; eassumption|]. intros w.
      apply (Scan_dial_error _ _ _ _ NewClientConn s dialGroup target w err Hv Hdial). }
  assert (Hconn : (exists err, modules.ConnectTimeout f <> 0%Z /\
                     net.SetDeadline conn (modules.ConnectTimeout f) = Some err)
                  \/ connected f dialGroup target conn).
  { unfold connected.
    destruct (net.SetDeadline conn (modules.ConnectTimeout f)) as [err|] eqn:Hset.
    - destruct (Z.eq_dec (modules.ConnectTimeout f) 0) as [E|E].
      + right. split; [assumption|]. intros; contradiction.
      + left. exists err. split; [assumption|reflexivity].
    - right. split; [assumption|]. intros; reflexivity. }
  destruct Hconn as [[err [Hne Hset]]|Hconn].
  { do 3 eexists. split; [econstructor; eassumption|]. intros w.
    apply (Scan_deadline_error _ _ _ _ NewClientConn s dialGroup target w conn err
             Hv Hdial Hne Hset). }
  destruct (NewClientConn conn rhost sshConfig ssh.new_HandshakeLog)
    as [[log sent] [sshClient|err]] eqn:Hdrv.
  - do 3 eexists. split; [econstructor; eassumption|]. intros w.
    apply (Scan_success _ _ _ _ NewClientConn s dialGroup target w conn log sent
             sshClient Hv Hconn Hdrv).
  - do 3 eexists. split; [econstructor; eassumption|]. intros w.
    apply (Scan_handshake_error _ _ _ _ NewClientConn s dialGroup target w conn log
             sent err Hv Hconn Hdrv).
Qed.


Lemma In_closeEvents (e : modules.Event) (closeErr : option error) :
  In e (closeEvents target closeErr) -> isLogErrorf e = true.
Proof.
  unfold closeEvents. destruct closeErr as [err|]; [|intros []].
  destruct (strings.Contains _ _); [intros []|].
  intros [<-|[]]. reflexivity.
Qed.

End ScanCases.

Section ScanFacts.

Variables supportedKexAlgos supportedHostKeyAlgos supportedCiphers supportedMACs
  : list string.
Variable NewClientConn : ssh.Driver.
Variable s : modules.SSHScanner.
Variable dialGroup : zgrab2.DialerGroup.
Variable target : zgrab2.ScanTarget.

Local Abbreviation f := (modules.config s).
Local Abbreviation Scan :=
  (modules.Scan supportedKexAlgos supportedHostKeyAlgos supportedCiphers
     supportedMACs NewClientConn s dialGroup target).
Local Abbreviation sshConfig :=
  (probeConfig supportedKexAlgos supportedHostKeyAlgos supportedCiphers
     supportedMACs f).
Local Abbreviation rhost := (rhostOf target).
Local Abbreviation allValidated :=
  (validated supportedHostKeyAlgos (modules.HostKeyAlgorithms f) /\
   validated supportedKexAlgos (modules.KexAlgorithms f) /\
   validated supportedCiphers (modules.Ciphers f) /\
   validated supportedMACs (modules.MACs f)).
Local Abbreviation rejected :=
  (firstRejected supportedKexAlgos supportedHostKeyAlgos supportedCiphers
     supportedMACs f).
Local Abbreviation cases :=
  (Scan_cases supportedKexAlgos supportedHostKeyAlgos supportedCiphers supportedMACs
     NewClientConn s dialGroup target).

Lemma filter_dialEvents :
  filter isClose (dialEvents f target) = [] /\
  filter isLogErrorf (dialEvents f target) = [] /\
  filter isNewClientConn (dialEvents f target) = [] /\
  filter isSetDeadline (dialEvents f target)
  = if (modules.ConnectTimeout f =? 0)%Z then []
    else [modules.EvSetDeadline (modules.ConnectTimeout f)].
Proof.
  unfold dialEvents. destruct (modules.ConnectTimeout f =? 0)%Z; repeat split.
Qed.

Lemma filter_sent (sent : list ssh.Msg) :
  filter isClose (map modules.EvSend sent) = [] /\
  filter isLogErrorf (map modules.EvSend sent) = [] /\
  filter isNewClientConn (map modules.EvSend sent) = [] /\
  filter isSetDeadline (map modules.EvSend sent) = [].
Proof. induction sent as [|m sent IH]; simpl; [repeat split|exact IH]. Qed.

Lemma filter_closeEvents (closeErr : option error) :
  filter isClose (closeEvents target closeErr) = [] /\
  filter isNewClientConn (closeEvents target closeErr) = [] /\
  filter isSetDeadline (closeEvents target closeErr) = [].
Proof.
  unfold closeEvents. destruct closeErr as [e|]; [|repeat split].
  destruct (strings.Contains _ _); repeat split.
Qed.

Ltac filter_events :=
  repeat rewrite filter_app; cbn [filter isClose isLogErrorf isNewClientConn isSetDeadline];
  repeat rewrite filter_app; cbn [filter isClose isLogErrorf isNewClientConn isSetDeadline];
  repeat rewrite (proj1 filter_dialEvents);
  repeat rewrite (proj1 (proj2 filter_dialEvents));
  repeat rewrite (proj1 (proj2 (proj2 filter_dialEvents)));
  repeat rewrite (proj2 (proj2 (proj2 filter_dialEvents)));
  repeat rewrite (proj1 (filter_sent _));
  repeat rewrite (proj1 (proj2 (filter_sent _)));
  repeat rewrite (proj1 (proj2 (proj2 (filter_sent _))));
  repeat rewrite (proj2 (proj2 (proj2 (filter_sent _))));
  repeat rewrite (proj1 (filter_closeEvents _));
  repeat rewrite (proj1 (proj2 (filter_closeEvents _)));
  repeat rewrite (proj2 (proj2 (filter_closeEvents _)));
  cbn [app].


(** X9: [Scan] closes the SSH client exactly when it returns a log, and then
    once. On every other way out (a rejected preference, a dial error, a
    deadline error, a handshake error) [Scan] calls no [Close], not even on
    the connection it has dialed. [log.Errorf] is called only in a run that
    called [Close]. *)
Theorem Scan_closes_on_success_only (w : modules.World) :
  exists evs,
    modules.trace (snd (Scan w)) = modules.trace w ++ evs /\
    filter isClose evs
    = match fst (Scan w) with
      | modules.Returned (_, Some _, _) => [modules.EvClose]
      | _ => []
      end /\
    (filter isLogErrorf evs <> [] -> filter isClose evs = [modules.EvClose]).
Proof.
  destruct cases as (out & log & evs & Hcase & Hrun). exists evs. rewrite (Hrun w).
  cbn [fst snd modules.trace]. split; [reflexivity|].
  destruct Hcase as [err Hrej|err Hv Hdial|conn err Hv Hdial Hne Hset
                     |conn log sent err Hv Hconn Hdrv|conn log sent sshClient Hv Hconn Hdrv];
    filter_events; split; try reflexivity; try congruence.
Qed.

(** X10: the deadline. With a connect timeout of zero [Scan] never calls
    [SetDeadline], and with valid preferences the handshake driver is called
    once on the dialed connection, without a deadline. With another timeout
    and valid preferences [Scan] calls [SetDeadline] once the dial has
    succeeded, once, with that timeout; after a failed dial, never. *)
Theorem Scan_sets_the_deadline_once (w : modules.World) :
  exists evs,
    modules.trace (snd (Scan w)) = modules.trace w ++ evs /\
    (modules.ConnectTimeout f = 0%Z ->
     filter isSetDeadline evs = [] /\
     (forall conn, allValidated -> zgrab2.Dial dialGroup target = inl conn ->
        filter isNewClientConn evs = [modules.EvNewClientConn rhost sshConfig])) /\
    (modules.ConnectTimeout f <> 0%Z ->
     forall conn, allValidated -> zgrab2.Dial dialGroup target = inl conn ->
       filter isSetDeadline evs = [modules.EvSetDeadline (modules.ConnectTimeout f)]) /\
    (forall err, zgrab2.Dial dialGroup target = inr err ->
       filter isSetDeadline evs = []).
Proof.
  destruct cases as (out & log & evs & Hcase & Hrun). exists evs. rewrite (Hrun w).
  cbn [fst snd modules.trace]. split; [reflexivity|].
  assert (Hrej : forall err, rejected = Some err -> allValidated -> False).
  { intros err H Hv.
    apply (rejected_None supportedKexAlgos supportedHostKeyAlgos supportedCiphers
             supportedMACs s) in Hv. congruence. }
  destruct Hcase as [err Hr|err Hv Hdial|conn err Hv Hdial Hne Hset
                     |conn log sent err Hv [Hdial Hset] Hdrv
                     |conn log sent sshClient Hv [Hdial Hset] Hdrv];
    filter_events.
  - split; [|split].
    + intros _. split; [reflexivity|]. intros conn Hv _. destruct (Hrej err Hr Hv).
    + intros _ conn Hv _. destruct (Hrej err Hr Hv).
    + reflexivity.
  - split; [|split].
    + intros _. split; [reflexivity|]. intros conn _ H. congruence.
    + intros _ conn _ H. congruence.
    + reflexivity.
  - split; [|split].
    + intros E. contradiction.
    + intros E conn' _ _. destruct (Z.eqb_spec (modules.ConnectTimeout f) 0);
        [contradiction|reflexivity].
    + intros err' H. congruence.
  - split; [|split].
    + intros E. rewrite E. cbn. split; reflexivity.
    + intros E conn' _ _. destruct (Z.eqb_spec (modules.ConnectTimeout f) 0);
        [contradiction|reflexivity].
    + intros err' H. congruence.
  - split; [|split].
    + intros E. rewrite E. cbn. split; reflexivity.
    + intros E conn' _ _. destruct (Z.eqb_spec (modules.ConnectTimeout f) 0);
        [contradiction|reflexivity].
    + intros err' H. congruence.
Qed.

(** X11: when several preference strings are rejected, [log.Fatal] reports
    the first in the order of the checks: the host key algorithms, then the
    key exchange algorithms, then the ciphers, then the MACs. *)
Theorem Scan_reports_the_first_rejected (w : modules.World) :
  let fatal err :=
    Scan w = (modules.Exited 1,
              {| modules.heap := ssh.new_HandshakeLog;
                 modules.trace := modules.trace w ++ [modules.EvLogFatal (Error err)] |}) in
  (forall err,
     snd (ssh.validateAlgorithms (modules.HostKeyAlgorithms f) supportedHostKeyAlgos)
     = Some err -> fatal err) /\
  (validated supportedHostKeyAlgos (modules.HostKeyAlgorithms f) ->
   forall err,
     snd (ssh.validateAlgorithms (modules.KexAlgorithms f) supportedKexAlgos)
     = Some err -> fatal err) /\
  (validated supportedHostKeyAlgos (modules.HostKeyAlgorithms f) ->
   validated supportedKexAlgos (modules.KexAlgorithms f) ->
   forall err,
     snd (ssh.validateAlgorithms (modules.Ciphers f) supportedCiphers)
     = Some err -> fatal err) /\
  (validated supportedHostKeyAlgos (modules.HostKeyAlgorithms f) ->
   validated supportedKexAlgos (modules.KexAlgorithms f) ->
   validated supportedCiphers (modules.Ciphers f) ->
   forall err,
     snd (ssh.validateAlgorithms (modules.MACs f) supportedMACs)
     = Some err -> fatal err).
Proof.
  intros fatal. unfold fatal, validated.
  repeat match goal with |- _ /\ _ => split end; intros;
    apply (Scan_fatal_first supportedKexAlgos supportedHostKeyAlgos supportedCiphers
             supportedMACs NewClientConn s dialGroup target);
    unfold firstRejected;
    repeat match goal with H : snd _ = _ |- _ => rewrite H; clear H end;
    reflexivity.
Qed.


(** X13: an invocation of [Scan] starts from a log of its own: what it
    returns, the log it leaves and the events it adds are the same whatever
    log and whatever events the store held before. *)
Theorem Scan_starts_from_a_fresh_log (w1 w2 : modules.World) :
  fst (Scan w1) = fst (Scan w2) /\
  modules.heap (snd (Scan w1)) = modules.heap (snd (Scan w2)) /\
  exists evs,
    modules.trace (snd (Scan w1)) = modules.trace w1 ++ evs /\
    modules.trace (snd (Scan w2)) = modules.trace w2 ++ evs.
Proof.
  destruct cases as (out & log & evs & _ & Hrun).
  rewrite (Hrun w1), (Hrun w2). cbn [fst snd modules.heap modules.trace].
  split; [reflexivity|]. split; [reflexivity|].
  exists evs. split; reflexivity.
Qed.

End ScanFacts.

(** ** The text that suppresses a close error *)

Lemma prefix_of_append (sub post : string) : String.prefix sub (sub ++ post) = true.
Proof.
  induction sub as [|c sub IH]; simpl.
  - destruct post; reflexivity.
  - destruct (Ascii.ascii_dec c c); [exact IH|congruence].
Qed.

Lemma Contains_unfold (s substr : string) :
  strings.Contains s substr
  = (String.prefix substr s ||
     match s with
     | EmptyString => false
     | String.String _ s' => strings.Contains s' substr
     end)%bool.
Proof. destruct s; reflexivity. Qed.

(** [Contains] holds exactly of the strings that have [substr] somewhere. *)
Lemma Contains_iff (s substr : string) :
  strings.Contains s substr = true <->
  exists pre post, s = (pre ++ substr ++ post)%string.
Proof.
  split.
  - induction s as [|c s IH]; rewrite Contains_unfold; intros H.
    + rewrite orb_false_r in H. apply prefix_split in H.
      exists ""%string. eexists. exact H.
    + apply orb_true_iff in H. destruct H as [H|H].
      * apply prefix_split in H. exists ""%string. eexists. exact H.
      * destruct (IH H) as (pre & post & ->).
        exists (String.String c pre), post. reflexivity.
  - intros (pre & post & ->). induction pre as [|c pre IH].
    + rewrite Contains_unfold. cbn [String.append].
      rewrite prefix_of_append. reflexivity.
    + rewrite Contains_unfold. cbn [String.append]. rewrite IH. apply orb_true_r.
Qed.

(** X14: the close error is suppressed by a substring test. After a
    completed handshake, a [Close] error whose message has the text "use of
    closed network connection" anywhere in it (behind an address, or inside
    an error wrapped with another prefix) adds no [log.Errorf]: the run logs
    nothing, and the result is the one of a clean close. A close error
    without the text is logged once, with the target and the message. *)
Theorem Scan_suppresses_close_error_by_substring
  (supportedKexAlgos supportedHostKeyAlgos supportedCiphers supportedMACs : list string)
  (driver : ssh.Driver) (s : modules.SSHScanner) (dialGroup : zgrab2.DialerGroup)
  (target : zgrab2.ScanTarget) (w : modules.World)
  (conn : net.Conn) (log : ssh.HandshakeLog) (sent : list ssh.Msg)
  (sshClient : ssh.Client) (err : error) :
  (validated supportedHostKeyAlgos (modules.HostKeyAlgorithms (modules.config s)) /\
   validated supportedKexAlgos (modules.KexAlgorithms (modules.config s)) /\
   validated supportedCiphers (modules.Ciphers (modules.config s)) /\
   validated supportedMACs (modules.MACs (modules.config s))) ->
  connected (modules.config s) dialGroup target conn ->
  driver conn (rhostOf target)
    (probeConfig supportedKexAlgos supportedHostKeyAlgos supportedCiphers supportedMACs
       (modules.config s)) ssh.new_HandshakeLog = (log, sent, inl sshClient) ->
  ssh.Close sshClient = Some err ->
  let run := modules.Scan supportedKexAlgos supportedHostKeyAlgos supportedCiphers
               supportedMACs driver s dialGroup target w in
  fst run = modules.Returned (zgrab2.SCAN_SUCCESS, Some log, None) /\
  ((exists pre post,
      Error err = (pre ++ "use of closed network connection" ++ post)%string) ->
   filter isLogErrorf (modules.trace (snd run)) = filter isLogErrorf (modules.trace w)) /\
  ((forall pre post,
      Error err <> (pre ++ "use of closed network connection" ++ post)%string) ->
   filter isLogErrorf (modules.trace (snd run))
   = filter isLogErrorf (modules.trace w)
       ++ [modules.EvLogErrorf ("error closing SSH client for target "
                                  ++ zgrab2.String target ++ ": " ++ Error err)]).
Proof.
  intros Hv Hconn Hdrv Hclose run. unfold run.
  rewrite (Scan_success _ _ _ _ _ _ _ _ w conn log sent sshClient Hv Hconn Hdrv).
  cbn [fst snd modules.trace]. split; [reflexivity|].
  rewrite Hclose. unfold closeEvents.
  assert (Hrest : forall closing,
            filter isLogErrorf
              (modules.trace w ++ dialEvents (modules.config s) target
                 ++ modules.EvNewClientConn (rhostOf target)
                      (probeConfig supportedKexAlgos supportedHostKeyAlgos
                         supportedCiphers supportedMACs (modules.config s))
                    :: map modules.EvSend sent ++ modules.EvClose :: closing)
            = filter isLogErrorf (modules.trace w) ++ filter isLogErrorf closing).
  { intros closing. rewrite !filter_app. cbn [filter isLogErrorf].
    rewrite filter_app. cbn [filter isLogErrorf].
    rewrite (proj1 (proj2 (filter_dialEvents s target))),
      (proj1 (proj2 (filter_sent sent))). reflexivity. }
  rewrite Hrest.
  destruct (strings.Contains (Error err) "use of closed network connection") eqn:E.
  - split.
    + intros _. cbn. apply app_nil_r.
    + intros Hno. exfalso. apply Contains_iff in E. destruct E as (pre & post & E).
      apply (Hno pre post). exact E.
  - split.
    + intros Hyes. apply Contains_iff in Hyes. congruence.
    + intros _. reflexivity.
Qed.

Lemma Scan_suppresses_close_error_by_substring_witness :
  Error sample.alreadyClosed
  = ("close tcp 192.0.2.7:22: " ++ "use of closed network connection" ++ "")%string /\
  filter isLogErrorf
    (modules.trace
       (snd (sample.Scan sample.scanner
               (sample.dials (sample.completes (Some sample.alreadyClosed)))
               sample.target sample.world0)))
  = [].
Proof.
  split; [reflexivity|].
  destruct (Scan_suppresses_close_error_by_substring
              sample.kexAlgos sample.hostKeyAlgos sample.ciphers sample.macs
              ssh.NewClientConn sample.scanner
              (sample.dials (sample.completes (Some sample.alreadyClosed)))
              sample.target sample.world0
              (sample.connTo (sample.completes (Some sample.alreadyClosed)))
              sample.completeLog
              [ssh.MsgVersion "SSH-2.0-Go";
               ssh.MsgKexInit sample.kexAlgos sample.hostKeyAlgos sample.ciphers
                 sample.macs]
              {| ssh.Close := Some sample.alreadyClosed |}
              sample.alreadyClosed
              sample_validated
              (sample_connected (sample.completes (Some sample.alreadyClosed)))
              eq_refl eq_refl)
    as (_ & Hyes & _).
  apply Hyes. exists "close tcp 192.0.2.7:22: "%string, ""%string. reflexivity.
Defined.

(** ** The banner callback at the edges *)

Lemma dropLeading_nothing (pats : list string) (fuel : nat) (s : string) :
  strings.leading pats s = None -> strings.dropLeading pats fuel s = s.
Proof. intros H. destruct fuel; simpl; [reflexivity|rewrite H; reflexivity]. Qed.

(** A string without white space at its ends is left as it is. *)
Lemma TrimSpace_clean (s : string) :
  strings.leadingSpace s = None -> strings.trailingSpace s = None ->
  strings.TrimSpace s = s.
Proof.
  unfold strings.leadingSpace, strings.trailingSpace, strings.TrimSpace,
    strings.TrimLeftSpace, strings.TrimRightSpace.
  intros Hl Ht. rewrite (dropLeading_nothing _ _ _ Hl), (dropLeading_nothing _ _ _ Ht).
  apply reverse_involutive.
Qed.

Lemma prefix_of_common (p q s : string) :
  String.prefix p s = true -> String.prefix q s = true ->
  String.prefix p q = true \/ String.prefix q p = true.
Proof.
  revert q s. induction p as [|c p IH]; intros q s Hp Hq.
  - left. destruct q; reflexivity.
  - destruct q as [|d q]; [right; reflexivity|].
    destruct s as [|e s]; [discriminate|]. simpl in *.
    destruct (Ascii.ascii_dec c e) as [->|]; [|discriminate].
    destruct (Ascii.ascii_dec d e) as [->|]; [|discriminate].
    destruct (Ascii.ascii_dec e e); [|congruence].
    apply (IH q s); assumption.
Qed.

(** No encoding of a white space rune starts another one. *)
Lemma spaceEncodings_prefix_free (p q : string) :
  In p strings.spaceEncodings -> In q strings.spaceEncodings ->
  String.prefix p q = true -> p = q.
Proof.
  assert (H : forallb (fun p => forallb (fun q =>
                 implb (String.prefix p q) (String.eqb p q))
                 strings.spaceEncodings) strings.spaceEncodings = true)
    by (vm_compute; reflexivity).
  rewrite forallb_forall in H. intros Hp Hq Hpre.
  specialize (H p Hp). rewrite forallb_forall in H. specialize (H q Hq).
  rewrite Hpre in H. simpl in H. apply String.eqb_eq. exact H.
Qed.

Lemma drop_append (p s : string) : strings.drop (String.length p) (p ++ s) = s.
Proof. induction p as [|c p IH]; simpl; [reflexivity|exact IH]. Qed.

(** A run of white space is dropped whole. *)
Lemma TrimLeftSpace_AllSpace (s : string) (fuel : nat) :
  strings.AllSpace s -> String.length s <= fuel ->
  strings.dropLeading strings.spaceEncodings fuel s = ""%string.
Proof.
  intros H. revert fuel. induction H as [|p s Hin Hs IH]; intros fuel Hlen.
  - destruct fuel; reflexivity.
  - pose proof spaceEncodings_not_empty as Hne. rewrite Forall_forall in Hne.
    specialize (Hne p Hin).
    destruct fuel as [|fuel].
    { rewrite length_append in Hlen. destruct p; [congruence|simpl in Hlen; lia]. }
    cbn [strings.dropLeading].
    destruct (strings.leading strings.spaceEncodings (p ++ s)) as [q|] eqn:E.
    + destruct (leading_Some _ _ _ E) as [Hq Hpre].
      assert (q = p).
      { destruct (prefix_of_common q p (p ++ s) Hpre (prefix_of_append p s)) as [H|H].
        - apply spaceEncodings_prefix_free; assumption.
        - symmetry. apply spaceEncodings_prefix_free; assumption. }
      subst q. rewrite drop_append. apply IH.
      rewrite length_append in Hlen. destruct p; [congruence|simpl in Hlen; lia].
    + pose proof (leading_None _ _ _ E Hin) as Hf.
      rewrite prefix_of_append in Hf. discriminate.
Qed.

(** X15: the banner callback at the edges. A banner with no white space at
    either end is stored byte for byte; a banner that is nothing but white
    space (the empty banner too) is stored as the empty string; storing the
    banner already trimmed changes nothing; and a later call replaces the
    banner of an earlier one, the log keeping no trace of it. *)
Theorem bannerCallback_edge_cases (banner : string) (data : ssh.HandshakeLog) :
  (strings.leadingSpace banner = None -> strings.trailingSpace banner = None ->
   ssh.Banner (fst (modules.bannerCallback banner data)) = banner) /\
  (strings.AllSpace banner ->
   ssh.Banner (fst (modules.bannerCallback banner data)) = ""%string) /\
  modules.bannerCallback (strings.TrimSpace banner) data
  = modules.bannerCallback banner data /\
  (forall later,
     modules.bannerCallback later (fst (modules.bannerCallback banner data))
     = modules.bannerCallback later data).
Proof.
  unfold modules.bannerCallback. cbn [fst ssh.Banner ssh.set_Banner].
  split; [|split; [|split]].
  - intros Hl Ht. apply TrimSpace_clean; assumption.
  - intros Hall. unfold strings.TrimSpace, strings.TrimLeftSpace.
    rewrite (TrimLeftSpace_AllSpace banner (String.length banner) Hall (le_n _)).
    reflexivity.
  - destruct (TrimSpace_spec banner) as (_ & Hl & Ht).
    rewrite (TrimSpace_clean _ Hl Ht). reflexivity.
  - intros later. reflexivity.
Qed.

Lemma bannerCallback_edge_cases_witness :
  ssh.Banner (fst (modules.bannerCallback "SSH-2.0-OpenSSH_9.0" sample.completeLog))
  = "SSH-2.0-OpenSSH_9.0" /\
  ssh.Banner (fst (modules.bannerCallback (sample.CR ++ sample.LF)%string
                     sample.completeLog))
  = ""%string.
Proof.
  split.
  - apply (proj1 (bannerCallback_edge_cases "SSH-2.0-OpenSSH_9.0" sample.completeLog));
      vm_compute; reflexivity.
  - apply (proj1 (proj2 (bannerCallback_edge_cases (sample.CR ++ sample.LF)%string
                           sample.completeLog))).
    change (strings.AllSpace (strings.bytes [13] ++ strings.bytes [10] ++ "")%string).
    constructor; [vm_compute; tauto|]. constructor; [vm_compute; tauto|]. constructor.
Defined.

(** ** The interface of the scanner *)

(** X16: neither [Validate] nor [Init] looks at the algorithm preferences:
    [Validate] returns nil for every value of the flags, and [Init] with a
    pointer to the flags returns nil and keeps them, so that [GetName] and
    [GetTrigger] answer their name and trigger and the dialer is configured
    for TCP with their base flags. A preference string that the validator
    rejects is therefore found by [Scan] only, where it ends the process. *)
Theorem Init_accepts_what_Scan_rejects
  (TransportProtocol : Type) (TransportTCP : TransportProtocol)
  (supportedKexAlgos supportedHostKeyAlgos supportedCiphers supportedMACs : list string)
  (driver : ssh.Driver) (dialGroup : zgrab2.DialerGroup) (target : zgrab2.ScanTarget)
  (w : modules.World) (f : modules.SSHFlags) (args : list string)
  (s0 : scanner.SSHScanner TransportProtocol) :
  scanner.Validate f args = None /\
  exists s1,
    scanner.Init TransportProtocol TransportTCP s0 (scanner.ptr_SSHFlags f)
    = Some (s1, None) /\
    scanner.GetName TransportProtocol s1 = Some (modules.Name f) /\
    scanner.GetTrigger TransportProtocol s1 = Some (modules.Trigger f) /\
    scanner.GetDialerGroupConfig TransportProtocol s1
    = Some {| scanner.TransportAgnosticDialerProtocol := TransportTCP;
              scanner.BaseFlagsPtr := scanner.BaseFlags_of f |} /\
    scanner.forScan TransportProtocol s1 = Some {| modules.config := f |} /\
    (forall err,
       firstRejected supportedKexAlgos supportedHostKeyAlgos supportedCiphers
         supportedMACs f = Some err ->
       fst (modules.Scan supportedKexAlgos supportedHostKeyAlgos supportedCiphers
              supportedMACs driver {| modules.config := f |} dialGroup target w)
       = modules.Exited 1).
Proof.
  split; [reflexivity|]. eexists. split; [reflexivity|].
  repeat (split; [reflexivity|]).
  intros err Hrej.
  rewrite (Scan_fatal_first supportedKexAlgos supportedHostKeyAlgos supportedCiphers
             supportedMACs driver {| modules.config := f |} dialGroup target w err Hrej).
  reflexivity.
Qed.
